(** * Hidden-manifold datasets: generation, persistence, standard loaders

    A shallow embedding of [src/dataset.py].

    - Python floats and tensor entries are idealised as real numbers.
    - A tensor is its shape together with its entries in row-major order.
    - Configuration values are the scalars that the default configuration
      uses: strings, integers and floats.
    - A [dict] is a finite map; dict objects live in a heap and are passed
      by reference, so that the aliasing between the caller's config, the
      generator's [self.config] and the [metadata] of [save_dataset] is
      visible.
    - The file system is a set of directories and a map from paths to file
      contents; paths are compared as strings, and [os.makedirs] records
      the directory it is asked for.
    - [torch.save] and [json.dump] store the value itself; the byte format
      of the two libraries is not modelled.
    - The random draws of one generation are an argument of
      [generate_dataset], so that a statement about every outcome of the
      sampling quantifies over them.
    - Methods run in a state-and-exception monad in which a raised
      exception keeps the effects performed before it.

    Left out: the two [Dataset] wrappers, [get_filepath] (it calls
    [get_filename], which the class does not define) and [print]. *)

From Stdlib Require Import Reals Lra Ascii String.
From stdpp Require Import gmap strings list fin_maps pretty.

Local Open Scope string_scope.

(** ** Values, exceptions, tensors *)

(** The scalars that occur as configuration values. *)
Inductive value :=
  | VStr (s : string)
  | VInt (z : Z)
  | VFloat (x : R).

Abbreviation dict := (gmap string value).
Abbreviation loc := nat.

Inductive exn :=
  | KeyError (key : string)
  | ValueError (msg : string)
  | NotImplementedError
  | TypeError
  | RuntimeError
  | IndexError
  | FileExistsError (path : string)
  | FileNotFoundError (path : string)
  | IsADirectoryError (path : string)
  | DecodeError
  | ConnectionError
  | DanglingReference.

Inductive result (A : Type) :=
  | Ok (a : A)
  | Raise (e : exn).
Arguments Ok {A} a.
Arguments Raise {A} e.

Record tensor := Tensor { shape : list nat; data : list R }.

(** What a file holds: a pickled tensor ([torch.save]) or a JSON object
    ([json.dump]), the latter as the list of its members. *)
Inductive content :=
  | FTensor (t : tensor)
  | FJson (members : list (string * value)).

Record filesystem := FileSystem {
  dirs : gset string;
  files : gmap string content
}.

(** The two attributes of a [HiddenManifold] instance; [config = None] is
    Python's [None]. *)
Record HiddenManifold := Instance {
  save_dir : string;
  config : option loc
}.

(** One dataset recorded by the experiment tracker. *)
Record run := Run {
  run_project : string;
  run_entity : string;
  run_dataset : tensor;
  run_metadata : dict
}.

Record machine := Machine {
  this : HiddenManifold;
  heap : gmap loc dict;
  fs : filesystem;
  cuda_is_available : bool;
  wandb_online : bool;
  wandb_runs : list run
}.

(** ** The monad *)

Definition M (A : Type) : Type := machine → result A * machine.

Definition ret {A} (a : A) : M A := λ m, (Ok a, m).
Definition raise {A} (e : exn) : M A := λ m, (Raise e, m).
Definition bind {A B} (c : M A) (k : A → M B) : M B :=
  λ m, match c m with
       | (Ok a, m') => k a m'
       | (Raise e, m') => (Raise e, m')
       end.
Definition lift {A} (r : result A) : M A := λ m, (r, m).
Definition gets {A} (f : machine → A) : M A := λ m, (Ok (f m), m).
Definition modify (f : machine → machine) : M unit := λ m, (Ok tt, f m).

#[export] Instance result_ret : MRet result := @Ok.
#[export] Instance result_bind : MBind result := λ A B k r,
  match r with
  | Ok a => k a
  | Raise e => Raise e
  end.

(** The monad is registered with stdpp's classes, which gives the
    notations [x ← c; k] and [c;; k]. *)
#[export] Instance M_ret : MRet M := @ret.
#[export] Instance M_bind : MBind M := λ A B k c, bind c k.

(** ** Heap of dict objects *)

Definition set_heap (h : gmap loc dict) (m : machine) : machine :=
  Machine (this m) h (fs m) (cuda_is_available m) (wandb_online m) (wandb_runs m).
Definition set_this (o : HiddenManifold) (m : machine) : machine :=
  Machine o (heap m) (fs m) (cuda_is_available m) (wandb_online m) (wandb_runs m).
Definition set_fs (f : filesystem) (m : machine) : machine :=
  Machine (this m) (heap m) f (cuda_is_available m) (wandb_online m) (wandb_runs m).
Definition set_runs (r : list run) (m : machine) : machine :=
  Machine (this m) (heap m) (fs m) (cuda_is_available m) (wandb_online m) r.

(** A dict display or [json.load] creates a new object. *)
Definition new_dict (d : dict) : M loc :=
  λ m, let l := fresh (dom (heap m)) in (Ok l, set_heap (<[l := d]> (heap m)) m).

Definition read_dict (l : loc) : M dict :=
  λ m, match heap m !! l with
       | Some d => (Ok d, m)
       | None => (Raise DanglingReference, m)
       end.

(** [d[k]] *)
Definition getitem (l : loc) (k : string) : M value :=
  d ← read_dict l;
  match d !! k with
  | Some v => ret v
  | None => raise (KeyError k)
  end.

(** [d[k] = v] *)
Definition setitem (l : loc) (k : string) (v : value) : M unit :=
  d ← read_dict l;
  modify (λ m, set_heap (<[l := <[k := v]> d]> (heap m)) m).

(** [del d[k]] *)
Definition delitem (l : loc) (k : string) : M unit :=
  d ← read_dict l;
  match d !! k with
  | Some _ => modify (λ m, set_heap (<[l := delete k d]> (heap m)) m)
  | None => raise (KeyError k)
  end.

(** Subscripting or item assignment on a reference that may be [None]. *)
Definition subscriptable (o : option loc) : M loc :=
  match o with
  | Some l => ret l
  | None => raise TypeError
  end.

(** ** Configuration *)

(** The dict display of [get_default_config]. *)
Definition default_config (cuda : bool) : dict :=
  list_to_map
    [ ("feature_distribution", VStr "gaussian");
      ("nonlinearity", VStr "tanh");
      ("D", VInt 64);
      ("N", VInt 1024);
      ("P", VInt 8192);
      ("p", VFloat (1 / 2));
      ("noise", VFloat 0);
      ("device", VStr (if cuda then "cuda" else "cpu")) ].

Definition get_default_config : M loc :=
  cuda ← gets cuda_is_available;
  new_dict (default_config cuda).

(** The loop of [build_config] over [kwargs.items()]. *)
Fixpoint build_config_loop (cfg : loc) (kwargs : list (string * value)) : M unit :=
  match kwargs with
  | [] => ret tt
  | (key, v) :: rest =>
      d ← read_dict cfg;
      match d !! key with
      | None => raise (ValueError ("Unknown parameter " +:+ key))
      | Some _ => setitem cfg key v;; build_config_loop cfg rest
      end
  end.

Definition build_config (kwargs : list (string * value)) : M loc :=
  cfg ← get_default_config;
  build_config_loop cfg kwargs;;
  ret cfg.

Definition get_config : M (option loc) :=
  gets (λ m, config (this m)).

(** ** Tensor operations used by the generator *)

#[export] Instance Rle_decision (x y : R) : Decision (x <= y)%R := Rle_dec x y.
#[export] Instance Rlt_decision (x y : R) : Decision (x < y)%R := Rlt_dec x y.

Definition numel (size : list nat) : nat := foldr Nat.mul 1%nat size.

(** [torch.randn(size)]: the entries are the draws of the sampler. *)
Definition randn (size : list nat) (draw : nat → R) : tensor :=
  Tensor size (draw <$> seq 0 (numel size)).

Definition ones (size : list nat) : tensor :=
  Tensor size (replicate (numel size) 1%R).

Definition tensor_map (f : R → R) (t : tensor) : tensor :=
  Tensor (shape t) (f <$> data t).

Definition scale (c : R) (t : tensor) : tensor := tensor_map (Rmult c) t.

Definition tensor_add (a b : tensor) : tensor :=
  Tensor (shape a) (zip_with Rplus (data a) (data b)).

(** [torch.bernoulli(t)]: every entry of [t] has to be a probability; entry
    [i] of the result is [1] when the [i]-th uniform draw falls below it. *)
Definition bernoulli (t : tensor) (draw : nat → R) : result tensor :=
  if forallb (λ q, bool_decide (0 <= q)%R && bool_decide (q <= 1)%R) (data t)
  then Ok (Tensor (shape t)
             (imap (λ i q, if decide (draw i < q)%R then 1%R else 0%R) (data t)))
  else Raise RuntimeError.

Definition entry (t : tensor) (i : nat) : R := nth i (data t) 0%R.

Definition dot (a b : tensor) (d n i j : nat) : R :=
  foldr Rplus 0%R ((λ k, entry a (i * d + k) * entry b (k * n + j))%R <$> seq 0 d).

(** [torch.matmul] of two matrices. *)
Definition matmul (a b : tensor) : result tensor :=
  match shape a, shape b with
  | [p; d], [d'; n] =>
      if decide (d = d')
      then Ok (Tensor [p; n]
                 (flat_map (λ i, (λ j, dot a b d n i j) <$> seq 0 n) (seq 0 p)))
      else Raise RuntimeError
  | _, _ => Raise RuntimeError
  end.

Definition relu (x : R) : R := Rmax 0 x.

(** A value used as a dimension of a tensor size. *)
Definition as_size (v : value) : result nat :=
  match v with
  | VInt z => if decide (0 ≤ z)%Z then Ok (Z.to_nat z) else Raise RuntimeError
  | _ => Raise TypeError
  end.

(** A value used as a number in tensor arithmetic. *)
Definition as_number (v : value) : result R :=
  match v with
  | VInt z => Ok (IZR z)
  | VFloat x => Ok x
  | VStr _ => Raise TypeError
  end.

(** [t.to(device)] *)
Definition to_device (t : tensor) (device : value) : M tensor :=
  match device with
  | VStr s =>
      if decide (s = "cpu") then ret t
      else if decide (s = "cuda")
           then cuda ← gets cuda_is_available;
                if cuda : bool then ret t else raise RuntimeError
           else raise RuntimeError
  | _ => raise TypeError
  end.

(** The outcome of the random sampling of one [generate_dataset] call:
    the normal draws of the feature matrix, the uniform draws behind the
    Bernoulli latent patterns, the normal draws of the noise. *)
Record entropy := Entropy {
  feature_draw : nat → R;
  latent_draw : nat → R;
  noise_draw : nat → R
}.

(** ** The generator *)

Definition generate_dataset (cfg : option loc) (rnd : entropy) : M tensor :=
  cfg ← match cfg with
        | None => get_default_config
        | Some l => ret l
        end;
  modify (λ m, set_this (Instance (save_dir (this m)) (Some cfg)) m);;
  fd ← getitem cfg "feature_distribution";
  feature_generator ←
    match fd with
    | VStr s => if decide (s = "gaussian") then ret randn else raise NotImplementedError
    | _ => raise NotImplementedError
    end;
  nl ← getitem cfg "nonlinearity";
  sigma ←
    match nl with
    | VStr s =>
        if decide (s = "relu") then ret relu
        else if decide (s = "tanh") then ret tanh
        else raise NotImplementedError
    | _ => raise NotImplementedError
    end;
  D ← getitem cfg "D";
  N ← getitem cfg "N";
  P ← getitem cfg "P";
  p ← getitem cfg "p";
  noise ← getitem cfg "noise";
  device ← getitem cfg "device";
  d ← lift (as_size D);
  n ← lift (as_size N);
  let feature_matrix := feature_generator [d; n] (feature_draw rnd) in
  np ← lift (as_size P);
  prob ← lift (as_number p);
  latent_patterns ← lift (bernoulli (scale prob (ones [np; d])) (latent_draw rnd));
  prod ← lift (matmul latent_patterns feature_matrix);
  root ← lift (as_number D);
  let dat := tensor_map sigma (tensor_map (λ x, x / sqrt root)%R prod) in
  sd ← lift (as_number noise);
  let dat := tensor_add dat (scale sd (randn [np; n] (noise_draw rnd))) in
  to_device dat device.

(** ** File system and serialisation *)

Fixpoint ends_with_sep (s : string) : bool :=
  match s with
  | EmptyString => false
  | String c EmptyString => bool_decide (c = "/"%char)
  | String _ rest => ends_with_sep rest
  end.

(** [os.path.join] of two components (POSIX). *)
Definition os_path_join (a b : string) : string :=
  if String.prefix "/" b then b
  else if bool_decide (a = "") || ends_with_sep a then a +:+ b
  else a +:+ "/" +:+ b.

(** [os.makedirs(name, exist_ok=exist_ok)] *)
Definition makedirs (name : string) (exist_ok : bool) : M unit :=
  f ← gets fs;
  if decide (name ∈ dom (files f)) then raise (FileExistsError name)
  else if decide (name ∈ dirs f)
       then if exist_ok then ret tt else raise (FileExistsError name)
       else modify (set_fs (FileSystem ({[name]} ∪ dirs f) (files f))).

(** Opening [path] for writing and storing [c] in it. *)
Definition write_file (path : string) (c : content) : M unit :=
  f ← gets fs;
  if decide (path ∈ dirs f) then raise (IsADirectoryError path)
  else modify (set_fs (FileSystem (dirs f) (<[path := c]> (files f)))).

Definition read_file (path : string) : M content :=
  f ← gets fs;
  if decide (path ∈ dirs f) then raise (IsADirectoryError path)
  else match files f !! path with
       | Some c => ret c
       | None => raise (FileNotFoundError path)
       end.

Definition torch_save (t : tensor) (path : string) : M unit :=
  write_file path (FTensor t).

Definition torch_load (path : value) : M tensor :=
  match path with
  | VStr s =>
      c ← read_file s;
      match c with
      | FTensor t => ret t
      | FJson _ => raise DecodeError
      end
  | _ => raise TypeError
  end.

(** [json.dump(d, f)] on a freshly opened [path] *)
Definition json_dump (d : loc) (path : string) : M unit :=
  obj ← read_dict d;
  write_file path (FJson (map_to_list obj)).

(** [json.load(f)]: a new dict; of a repeated member the last one counts. *)
Definition json_load (path : string) : M loc :=
  c ← read_file path;
  match c with
  | FJson members => new_dict (list_to_map (reverse members))
  | FTensor _ => raise DecodeError
  end.

(** Modelled from the spec: [WandbLogger.log_dataset] of [.logger], which
    is not in [src/]: it records the dataset and its metadata with the
    remote experiment tracker under a project and an entity, can fail, and
    touches neither the dicts nor the files of the caller. *)
Definition log_dataset (dataset : tensor) (metadata : loc)
    (project entity : string) : M unit :=
  md ← read_dict metadata;
  online ← gets wandb_online;
  if online : bool
  then modify (λ m, set_runs (wandb_runs m ++ [Run project entity dataset md]) m)
  else raise ConnectionError.

(** ** Persistence *)

Definition get_dirname (id : string) : string := "rf_" +:+ id.

Section Persistence.
  (** The constants of [.constants], which is not in [src/]. *)
Variables PROJECT ENTITY : string.

Definition save_dataset (dataset : tensor) (id : string)
      (exist_ok log_to_wandb : bool) : M unit :=
    o ← gets this;
    let dataset_dir := os_path_join (save_dir o) (get_dirname id) in
    makedirs dataset_dir exist_ok;;
    let filepath := os_path_join dataset_dir "dataset.pt" in
    torch_save dataset filepath;;
    metadata ← get_config;
    md ← subscriptable metadata;
    setitem md "id" (VStr id);;
    setitem md "dataset_path" (VStr filepath);;
    setitem md "dataset_dir" (VStr dataset_dir);;
    delitem md "device";;
    json_dump md (os_path_join dataset_dir "metadata.json");;
    if log_to_wandb then log_dataset dataset md PROJECT ENTITY else ret tt.

Definition load_dataset (id : string) : M (tensor * loc) :=
    o ← gets this;
    let dataset_dir := os_path_join (save_dir o) (get_dirname id) in
    let metadata_path := os_path_join dataset_dir "metadata.json" in
    metadata ← json_load metadata_path;
    dataset_path ← getitem metadata "dataset_path";
    dataset ← torch_load dataset_path;
    ret (dataset, metadata).
End Persistence.

(** ** Standard dataset loaders *)

(** Raw image data as the download utility hands it over (a [uint8]
    tensor, array or PIL image): a shape and the pixels in row-major
    order. *)
Record images := Images { ishape : list nat; pixels : list Z }.

Definition uint8 (im : images) : Prop :=
  Forall (λ v, 0 ≤ v ≤ 255)%Z (pixels im).

(** Arithmetic on a [uint8] tensor with a Python number promotes it to
    floating point. *)
Definition to_float (im : images) : tensor :=
  Tensor (ishape im) (IZR <$> pixels im).

(** [t.flatten(start_dim=1)] *)
Definition flatten_from_1 (t : tensor) : result tensor :=
  match shape t with
  | d0 :: d1 :: rest => Ok (Tensor [d0; numel (d1 :: rest)] (data t))
  | _ => Raise IndexError
  end.

(** The expression [2 * (x / 255) - 1] of the three loaders. *)
Definition rescale (t : tensor) : tensor :=
  tensor_map (λ x, 2 * (x / 255) - 1)%R t.

(** [transforms.ToTensor()] of torchvision on a greyscale picture of
    [h] by [w] pixels: a float tensor of shape [1; h; w] with every
    pixel divided by 255. *)
Definition ToTensor (pic : images) : result tensor :=
  match ishape pic with
  | [h; w] => Ok (Tensor [1; h; w] ((λ v, IZR v / 255)%R <$> pixels pic))
  | _ => Raise TypeError
  end.

(** The [transforms.Compose] of [load_mnist_as_dataset]. *)
Definition transform_pipeline (pic : images) : result tensor :=
  x ← ToTensor pic;
  x ← flatten_from_1 x;
  Ok (rescale x).

(** [load_mnist_as_dataset] returns the downloaded pictures with the
    pipeline attached; the result is represented by its [__getitem__]
    (labels left out). *)
Definition load_mnist_as_dataset (downloaded : list images) (idx : nat)
    : result tensor :=
  match downloaded !! idx with
  | Some pic => transform_pipeline pic
  | None => Raise IndexError
  end.

Definition as_str (v : value) : result string :=
  match v with
  | VStr s => Ok s
  | _ => Raise TypeError
  end.

Section Loaders.
Variable ENTITY : string.

  (** The tail shared by [load_mnist] and [load_cifar]. *)
Definition save_and_log (dat : tensor) (metadata : loc) (project : string)
      : M unit :=
    dir ← getitem metadata "dataset_dir";
    id ← getitem metadata "id";
    dir ← lift (as_str dir);
    id ← lift (as_str id);
    torch_save dat (os_path_join dir id);;
    log_dataset dat metadata project ENTITY.

  (** [dataset_data] is the [data] attribute of the downloaded MNIST. *)
Definition load_mnist (dataset_data : images) (train log_to_wandb : bool)
      (project : string) : M (tensor * loc) :=
    let dat := rescale (to_float dataset_data) in
    dat ← lift (flatten_from_1 dat);
    let split := if train then "train" else "test" in
    metadata ← new_dict (list_to_map
      [ ("id", VStr ("mnist-" +:+ split)); ("dataset_dir", VStr "data/MNIST") ]);
    (if log_to_wandb then save_and_log dat metadata project else ret tt);;
    ret (dat, metadata).

  (** [dataset_data] is the [data] attribute of the downloaded CIFAR-10
      or CIFAR-100. *)
Definition load_cifar (dataset_data : images) (train log_to_wandb : bool)
      (project : string) (num_classes : Z) : M (tensor * loc) :=
    let dat := rescale (to_float dataset_data) in
    dat ← lift (flatten_from_1 dat);
    let split := if train then "train" else "test" in
    metadata ← new_dict (list_to_map
      [ ("id", VStr ("cifar" +:+ pretty num_classes +:+ "-" +:+ split));
        ("dataset_dir", VStr ("data/cifar-" +:+ pretty num_classes +:+ "-batches-py")) ]);
    (if log_to_wandb then save_and_log dat metadata project else ret tt);;
    ret (dat, metadata).
End Loaders.

(** ** The dataset wrappers *)

(** [len(t)] of a tensor: its first dimension; a tensor without
    dimensions has no length. *)
Definition tensor_len (t : tensor) : result nat :=
  match shape t with
  | [] => Raise TypeError
  | n :: _ => Ok n
  end.

(** [t[idx]] for an integer index: the block number [idx] along the first
    dimension, counted from the end when [idx] is negative. *)
Definition tensor_getitem (t : tensor) (idx : Z) : result tensor :=
  match shape t with
  | [] => Raise IndexError
  | n :: rest =>
      let i := if decide (idx < 0)%Z then (idx + Z.of_nat n)%Z else idx in
      if decide (0 ≤ i < Z.of_nat n)%Z
      then Ok (Tensor rest
                 (take (numel rest) (drop (Z.to_nat i * numel rest) (data t))))
      else Raise IndexError
  end.

(** [copy.deepcopy] of a tensor: a tensor with the same shape and entries
    (tensors are values here, so the copy is the tensor). *)
Definition deepcopy (t : tensor) : tensor := t.

Module JepaDataset.
Record t := __init__ { self_data : tensor }.

Definition __len__ (self : t) : result nat := tensor_len (self_data self).

Definition __getitem__ (self : t) (idx : Z) : result (gmap string tensor) :=
  x ← tensor_getitem (self_data self) idx;
  let x_hat := deepcopy x in
  Ok (<["x_hat" := x_hat]> (<["x" := x]> ∅)).
End JepaDataset.

Module AutoencoderDataset.
Record t := __init__ { self_data : tensor }.

Definition __len__ (self : t) : result nat := tensor_len (self_data self).

Definition __getitem__ (self : t) (idx : Z) : result (gmap string tensor) :=
  x ← tensor_getitem (self_data self) idx;
  Ok (<["x" := x]> ∅).
End AutoencoderDataset.

(** ** Vocabulary of the properties *)

(** The on-disk unit of a dataset [id]. *)
Definition dataset_dir (o : HiddenManifold) (id : string) : string :=
  os_path_join (save_dir o) (get_dirname id).
Definition dataset_file (o : HiddenManifold) (id : string) : string :=
  os_path_join (dataset_dir o id) "dataset.pt".
Definition metadata_file (o : HiddenManifold) (id : string) : string :=
  os_path_join (dataset_dir o id) "metadata.json".

(** The metadata record in the words of the specification: the
    configuration without its compute target, plus the identifier and the
    two paths. *)
Definition metadata_record (cfg : dict) (o : HiddenManifold) (id : string) : dict :=
  <["dataset_dir" := VStr (dataset_dir o id)]>
    (<["dataset_path" := VStr (dataset_file o id)]>
       (<["id" := VStr id]> (delete "device" cfg))).

(** A configuration with which every step of [generate_dataset] goes
    through, for latent dimension [d], ambient dimension [n] and [np]
    samples. *)
Definition valid_config (cuda : bool) (c : dict) (d n np : nat) : Prop :=
  c !! "feature_distribution" = Some (VStr "gaussian")
  ∧ (c !! "nonlinearity" = Some (VStr "relu")
     ∨ c !! "nonlinearity" = Some (VStr "tanh"))
  ∧ c !! "D" = Some (VInt (Z.of_nat d))
  ∧ c !! "N" = Some (VInt (Z.of_nat n))
  ∧ c !! "P" = Some (VInt (Z.of_nat np))
  ∧ (∃ v x, c !! "p" = Some v ∧ as_number v = Ok x ∧ (0 <= x <= 1)%R)
  ∧ (∃ v x, c !! "noise" = Some v ∧ as_number v = Ok x)
  ∧ (c !! "device" = Some (VStr "cpu")
     ∨ c !! "device" = Some (VStr "cuda") ∧ cuda = true).

(** A computation that cannot end in [NotImplementedError]. *)
Definition implemented {A} (c : M A) : Prop :=
  ∀ m, (c m).1 ≠ Raise NotImplementedError.

(** A computation that leaves the machine as it found it. *)
Definition read_only {A} (c : M A) : Prop := ∀ m, (c m).2 = m.

(** A tensor whose entries fill its shape. *)
Definition well_formed (t : tensor) : Prop := length (data t) = numel (shape t).

(** Uniform draws lie in the unit interval, [1] excluded. *)
Definition unit_draws (draw : nat → R) : Prop := ∀ i, (0 <= draw i < 1)%R.

(** The keys that [generate_dataset] reads, in the order in which it reads
    them. *)
Definition read_order : list string :=
  [ "feature_distribution"; "nonlinearity"; "D"; "N"; "P"; "p"; "noise";
    "device" ].

(** Whether an identifier contains the path separator. *)
Fixpoint has_sep (s : string) : bool :=
  match s with
  | EmptyString => false
  | String c rest => bool_decide (c = "/"%char) || has_sep rest
  end.

(** A computation whose every run, whatever its outcome, relates the
    machine it starts from to the machine it leaves. *)
Definition keeps {A} (R : machine → machine → Prop) (c : M A) : Prop :=
  ∀ m, R m (c m).2.

(** From [m] to [m'] at most the directory [dir] was added, at most the
    files [f1] and [f2] and the dict at [l] were written, and the instance
    and the environment are the same. *)
Definition unit_step (dir f1 f2 : string) (l : option loc) (m m' : machine) : Prop :=
  this m' = this m
  ∧ dirs (fs m) ⊆ dirs (fs m')
  ∧ dirs (fs m') ⊆ {[dir]} ∪ dirs (fs m)
  ∧ (∀ p, p ≠ f1 → p ≠ f2 → files (fs m') !! p = files (fs m) !! p)
  ∧ (∀ l', l ≠ Some l' → heap m' !! l' = heap m !! l').

(** ** Example machines *)

(** [HiddenManifold(save_dir="data")] on an empty disk, without a GPU and
    with the tracker unreachable. *)
Definition booted : machine :=
  Machine (Instance "data" None) ∅ (FileSystem ∅ ∅) false false [].

(** A small configuration: two latent dimensions, three ambient ones, two
    samples. *)
Definition small_config : dict :=
  list_to_map
    [ ("feature_distribution", VStr "gaussian");
      ("nonlinearity", VStr "relu");
      ("D", VInt 2);
      ("N", VInt 3);
      ("P", VInt 2);
      ("p", VFloat (1 / 2));
      ("noise", VFloat 0);
      ("device", VStr "cpu") ].

(** The same machine with [small_config] allocated at address [0]. *)
Definition with_small_config : machine :=
  Machine (Instance "data" None) {[ 0 := small_config ]} (FileSystem ∅ ∅)
    false false [].

Definition still_entropy : entropy := Entropy (λ _, 0%R) (λ _, 0%R) (λ _, 0%R).

(** [with_small_config] once [generate_dataset] has stored the reference. *)
Definition generated : machine :=
  set_this (Instance "data" (Some 0)) with_small_config.

Definition one_point : tensor := Tensor [1; 1] [0%R].

(** A machine whose instance retains [small_config] (at address [1]) and
    that holds a configuration with an unsupported feature distribution (at
    address [0]). *)
Definition with_uniform_config : machine :=
  Machine (Instance "data" (Some 1))
    {[ 0 := <["feature_distribution" := VStr "uniform"]> small_config;
       1 := small_config ]}
    (FileSystem ∅ ∅) false false [].

(** The keyword arguments of the scenario
    [{D: 4, N: 8, P: 16, p: 0.5, noise: 0.0, nonlinearity: "relu"}]. *)
Definition scenario_kwargs : list (string * value) :=
  [ ("D", VInt 4); ("N", VInt 8); ("P", VInt 16); ("p", VFloat (1 / 2));
    ("noise", VFloat 0); ("nonlinearity", VStr "relu") ].

(** A white MNIST picture, alone and as a batch of one. *)
Definition white_picture : images := Images [28; 28] (replicate 784 255%Z).
Definition white_batch : images := Images [1; 28; 28] (replicate 784 255%Z).

(** A disk on which the metadata of the dataset ["demo"] records a tensor
    file that lies outside the directory of the dataset. *)
Definition relocated : machine :=
  Machine (Instance "data" None) ∅
    (FileSystem {[ "data/rf_demo" ]}
       (<["backup/demo.pt" := FTensor one_point]>
          (<["data/rf_demo/metadata.json" :=
               FJson [("id", VStr "demo"); ("dataset_path", VStr "backup/demo.pt")]]>
             ∅)))
    false false [].

(** A disk on which the directory of the dataset ["demo"] is there. *)
Definition with_demo_dir : machine :=
  Machine (Instance "data" None) ∅ (FileSystem {[ "data/rf_demo" ]} ∅)
    false false [].

(** [small_config] with every latent unit switched off, and with every
    latent unit switched on. *)
Definition silent_config : dict := <["p" := VInt 0]> small_config.
Definition saturated_config : dict := <["p" := VInt 1]> small_config.

(** [small_config] without its key ["N"]. *)
Definition truncated_config : dict := delete "N" small_config.

(** A machine like [with_small_config] with another dict at address [0]. *)
Definition with_config (c : dict) : machine :=
  Machine (Instance "data" None) {[ 0 := c ]} (FileSystem ∅ ∅) false false [].

(** Two samples of two entries each. *)
Definition two_samples : tensor := Tensor [2; 2] [1; 2; 3; 4]%R.

Arguments os_path_join : simpl never.
Arguments get_dirname : simpl never.
Arguments default_config : simpl never.

(** * Properties *)

(** ** Running the monad *)

Lemma run_bind {A B} (c : M A) (k : A → M B) (m : machine) :
  (c ≫= k) m = match c m with
               | (Ok a, m') => k a m'
               | (Raise e, m') => (Raise e, m')
               end.
Proof. reflexivity. Qed.

Lemma run_bind_ok {A B} (c : M A) (k : A → M B) m a m' :
  c m = (Ok a, m') → (c ≫= k) m = k a m'.
Proof. intros H. rewrite run_bind, H. reflexivity. Qed.

Lemma run_bind_raise {A B} (c : M A) (k : A → M B) m e m' :
  c m = (Raise e, m') → (c ≫= k) m = (Raise e, m').
Proof. intros H. rewrite run_bind, H. reflexivity. Qed.

Lemma bind_ok_inv {A B} (c : M A) (k : A → M B) m b m2 :
  (c ≫= k) m = (Ok b, m2) → ∃ a m1, c m = (Ok a, m1) ∧ k a m1 = (Ok b, m2).
Proof.
  rewrite run_bind. destruct (c m) as [[a|e] m1]; [eauto | discriminate].
Qed.

Lemma read_only_run {A} (c : M A) (m : machine) :
  read_only c → c m = ((c m).1, m).
Proof. intros H. rewrite <- (H m) at 3. by destruct (c m). Qed.

Lemma read_only_ret {A} (a : A) : read_only (mret a).
Proof. done. Qed.

Lemma read_only_raise {A} (e : exn) : read_only (@raise A e).
Proof. done. Qed.

Lemma read_only_lift {A} (r : result A) : read_only (lift r).
Proof. done. Qed.

Lemma read_only_gets {A} (f : machine → A) : read_only (gets f).
Proof. done. Qed.

Lemma read_only_bind {A B} (c : M A) (k : A → M B) :
  read_only c → (∀ a, read_only (k a)) → read_only (c ≫= k).
Proof.
  intros Hc Hk m. rewrite run_bind, (read_only_run c m Hc).
  destruct (c m).1; [apply Hk | done].
Qed.

Lemma read_only_read_dict l : read_only (read_dict l).
Proof. intros m. unfold read_dict. by destruct (heap m !! l). Qed.

Lemma read_only_getitem l k : read_only (getitem l k).
Proof.
  apply read_only_bind; [apply read_only_read_dict|].
  intros d. by destruct (d !! k).
Qed.

Lemma read_only_to_device t v : read_only (to_device t v).
Proof.
  destruct v as [s| |]; try done. unfold to_device.
  repeat case_decide; try done.
  apply read_only_bind; [done|]. by intros [].
Qed.

Create HintDb read_only.
#[local] Hint Resolve read_only_ret read_only_raise read_only_lift
  read_only_gets read_only_read_dict read_only_getitem read_only_to_device
  : read_only.

(** ** Paths *)

Lemma append_empty_r (s : string) : s +:+ "" = s.
Proof.
  induction s as [|c s IH]; [done|].
  change (String c (s +:+ "") = String c s). by rewrite IH.
Qed.

Lemma append_ne_self (a b : string) : b ≠ "" → a +:+ b ≠ a.
Proof.
  intros Hb H. apply Hb, (String.app_inj a). by rewrite append_empty_r.
Qed.

(** Joining a relative component appends it after a separator that only
    depends on the first component. *)
Lemma os_path_join_relative (a b : string) :
  String.prefix "/" b = false →
  os_path_join a b
  = a +:+ (if bool_decide (a = "") || ends_with_sep a then "" else "/") +:+ b.
Proof.
  intros Hb. unfold os_path_join. rewrite Hb.
  by destruct (bool_decide (a = "") || ends_with_sep a).
Qed.

Lemma dataset_file_ne_metadata_file o id :
  dataset_file o id ≠ metadata_file o id.
Proof.
  unfold dataset_file, metadata_file.
  rewrite !os_path_join_relative by done.
  intros H. apply String.app_inj in H.
  by destruct (bool_decide _ || _).
Qed.

Lemma dataset_file_ne_dataset_dir o id :
  dataset_file o id ≠ dataset_dir o id.
Proof.
  unfold dataset_file. rewrite os_path_join_relative by done.
  apply append_ne_self. by destruct (bool_decide _ || _).
Qed.

Lemma metadata_file_ne_dataset_dir o id :
  metadata_file o id ≠ dataset_dir o id.
Proof.
  unfold metadata_file. rewrite os_path_join_relative by done.
  apply append_ne_self. by destruct (bool_decide _ || _).
Qed.

(** ** The primitives of the heap and of the file system *)

Lemma set_fs_same (m : machine) (f : filesystem) : fs m = f → set_fs f m = m.
Proof. intros <-. by destruct m. Qed.

Lemma makedirs_ok name exist_ok m :
  name ∉ dom (files (fs m)) →
  (name ∈ dirs (fs m) → exist_ok = true) →
  makedirs name exist_ok m
  = (Ok tt, set_fs (FileSystem ({[name]} ∪ dirs (fs m)) (files (fs m))) m).
Proof.
  intros Hfile Hdir. unfold makedirs. rewrite run_bind. cbn.
  destruct (decide (name ∈ dom (files (fs m)))); [done|].
  destruct (decide (name ∈ dirs (fs m))) as [Hin|]; [|done].
  rewrite (Hdir Hin). cbn. f_equal. symmetry. apply set_fs_same.
  destruct (fs m) as [ds fl]. cbn in *. f_equal.
  symmetry. by apply subseteq_union_1_L, singleton_subseteq_l.
Qed.

Lemma makedirs_ok_inv name exist_ok u m m' :
  makedirs name exist_ok m = (Ok u, m') →
  (name ∉ dom (files (fs m)))
  ∧ (name ∈ dirs (fs m) → exist_ok = true)
  ∧ m' = set_fs (FileSystem ({[name]} ∪ dirs (fs m)) (files (fs m))) m.
Proof.
  intros H.
  assert ((name ∉ dom (files (fs m))) ∧ (name ∈ dirs (fs m) → exist_ok = true))
    as [Hfile Hdir].
  { unfold makedirs in H. rewrite run_bind in H. cbn in H.
    destruct (decide (name ∈ dom (files (fs m)))); [done|].
    split; [done|]. intros Hin.
    destruct (decide (name ∈ dirs (fs m))); [|done]. by destruct exist_ok. }
  rewrite makedirs_ok in H by done. by injection H.
Qed.

Lemma makedirs_exists name m :
  name ∈ dirs (fs m) → makedirs name false m = (Raise (FileExistsError name), m).
Proof.
  intros Hdir. unfold makedirs. rewrite run_bind. cbn.
  destruct (decide (name ∈ dom (files (fs m)))); [done|].
  destruct (decide (name ∈ dirs (fs m))); done.
Qed.

Lemma write_file_ok path c m :
  path ∉ dirs (fs m) →
  write_file path c m
  = (Ok tt, set_fs (FileSystem (dirs (fs m)) (<[path := c]> (files (fs m)))) m).
Proof.
  intros Hdir. unfold write_file. rewrite run_bind. cbn.
  by destruct (decide (path ∈ dirs (fs m))).
Qed.

Lemma write_file_ok_inv path c u m m' :
  write_file path c m = (Ok u, m') →
  (path ∉ dirs (fs m))
  ∧ m' = set_fs (FileSystem (dirs (fs m)) (<[path := c]> (files (fs m)))) m.
Proof.
  intros H. assert (path ∉ dirs (fs m)) as Hdir.
  { unfold write_file in H. rewrite run_bind in H. cbn in H.
    by destruct (decide (path ∈ dirs (fs m))). }
  rewrite write_file_ok in H by done. by injection H.
Qed.

Lemma read_file_ok path c m :
  path ∉ dirs (fs m) → files (fs m) !! path = Some c →
  read_file path m = (Ok c, m).
Proof.
  intros Hdir Hc. unfold read_file. rewrite run_bind. cbn.
  destruct (decide (path ∈ dirs (fs m))); [done|]. by rewrite Hc.
Qed.

Lemma read_dict_ok l d m : heap m !! l = Some d → read_dict l m = (Ok d, m).
Proof. intros H. unfold read_dict. by rewrite H. Qed.

Lemma read_dict_ok_inv l d m m' :
  read_dict l m = (Ok d, m') → heap m !! l = Some d ∧ m' = m.
Proof. unfold read_dict. destruct (heap m !! l); naive_solver. Qed.

Lemma getitem_ok l k d v m :
  heap m !! l = Some d → d !! k = Some v → getitem l k m = (Ok v, m).
Proof.
  intros Hl Hk. unfold getitem.
  rewrite (run_bind_ok _ _ _ _ _ (read_dict_ok _ _ _ Hl)). by rewrite Hk.
Qed.

Lemma getitem_missing l k d m :
  heap m !! l = Some d → d !! k = None → getitem l k m = (Raise (KeyError k), m).
Proof.
  intros Hl Hk. unfold getitem.
  rewrite (run_bind_ok _ _ _ _ _ (read_dict_ok _ _ _ Hl)). by rewrite Hk.
Qed.

Lemma setitem_ok l k v d m :
  heap m !! l = Some d →
  setitem l k v m = (Ok tt, set_heap (<[l := <[k := v]> d]> (heap m)) m).
Proof.
  intros Hl. unfold setitem.
  by rewrite (run_bind_ok _ _ _ _ _ (read_dict_ok _ _ _ Hl)).
Qed.

Lemma setitem_ok_inv l k v u m m' :
  setitem l k v m = (Ok u, m') →
  ∃ d, heap m !! l = Some d ∧ m' = set_heap (<[l := <[k := v]> d]> (heap m)) m.
Proof.
  intros (d & m1 & [Hd ->]%read_dict_ok_inv & H)%bind_ok_inv.
  exists d. split; [done|]. by injection H.
Qed.

Lemma delitem_ok l k d m :
  heap m !! l = Some d → is_Some (d !! k) →
  delitem l k m = (Ok tt, set_heap (<[l := delete k d]> (heap m)) m).
Proof.
  intros Hl [v Hk]. unfold delitem.
  rewrite (run_bind_ok _ _ _ _ _ (read_dict_ok _ _ _ Hl)). by rewrite Hk.
Qed.

Lemma delitem_missing l k d m :
  heap m !! l = Some d → d !! k = None →
  delitem l k m = (Raise (KeyError k), m).
Proof.
  intros Hl Hk. unfold delitem.
  rewrite (run_bind_ok _ _ _ _ _ (read_dict_ok _ _ _ Hl)). by rewrite Hk.
Qed.

Lemma delitem_ok_inv l k u m m' :
  delitem l k m = (Ok u, m') →
  ∃ d, heap m !! l = Some d ∧ is_Some (d !! k)
       ∧ m' = set_heap (<[l := delete k d]> (heap m)) m.
Proof.
  intros (d & m1 & [Hd ->]%read_dict_ok_inv & H)%bind_ok_inv.
  exists d. destruct (d !! k) eqn:Hk; [|done].
  split; [done|]. split; [eauto|]. by injection H.
Qed.

Lemma json_dump_ok l path d m :
  heap m !! l = Some d → path ∉ dirs (fs m) →
  json_dump l path m
  = (Ok tt, set_fs (FileSystem (dirs (fs m))
                      (<[path := FJson (map_to_list d)]> (files (fs m)))) m).
Proof.
  intros Hl Hp. unfold json_dump.
  rewrite (run_bind_ok _ _ _ _ _ (read_dict_ok _ _ _ Hl)).
  by apply write_file_ok.
Qed.

Lemma json_dump_ok_inv l path u m m' :
  json_dump l path m = (Ok u, m') →
  ∃ d, heap m !! l = Some d ∧ (path ∉ dirs (fs m))
       ∧ m' = set_fs (FileSystem (dirs (fs m))
                        (<[path := FJson (map_to_list d)]> (files (fs m)))) m.
Proof.
  intros (d & m1 & [Hd ->]%read_dict_ok_inv & [Hp ->]%write_file_ok_inv)%bind_ok_inv.
  eauto.
Qed.

(** The tracker only appends to its own record of runs. *)
Lemma log_dataset_ok_inv t l project entity u m m' :
  log_dataset t l project entity m = (Ok u, m') →
  ∃ runs, m' = set_runs runs m.
Proof.
  intros (d & m1 & [Hd ->]%read_dict_ok_inv & H)%bind_ok_inv.
  rewrite run_bind in H. cbn in H. destruct (wandb_online m); [|done].
  injection H as _ <-. eauto.
Qed.

(** Reading a JSON object back yields the dict that was dumped. *)
Lemma json_members_roundtrip (d : dict) :
  list_to_map (reverse (map_to_list d)) = d.
Proof.
  rewrite <- (list_to_map_to_list d) at 2.
  apply list_to_map_proper.
  - rewrite fmap_reverse, reverse_Permutation. apply NoDup_fst_map_to_list.
  - apply reverse_Permutation.
Qed.

(** ** What a save does *)

(** The code inserts the three fields and then deletes the compute
    target; the record of the specification deletes first. *)
Lemma metadata_record_code (cfg : dict) (o : HiddenManifold) (id : string) :
  delete "device"
    (<["dataset_dir" := VStr (dataset_dir o id)]>
       (<["dataset_path" := VStr (dataset_file o id)]>
          (<["id" := VStr id]> cfg)))
  = metadata_record cfg o id.
Proof. unfold metadata_record. by rewrite !delete_insert_ne. Qed.

Section SaveDataset.
Context (PROJECT ENTITY : string).

Lemma save_dataset_ok_inv d id exist_ok log_to_wandb u m m' :
    save_dataset PROJECT ENTITY d id exist_ok log_to_wandb m = (Ok u, m') →
    ∃ l cfg runs,
      config (this m) = Some l
      ∧ heap m !! l = Some cfg
      ∧ is_Some (cfg !! "device")
      ∧ (dataset_dir (this m) id ∉ dom (files (fs m)))
      ∧ (dataset_dir (this m) id ∈ dirs (fs m) → exist_ok = true)
      ∧ (dataset_file (this m) id ∉ dirs (fs m))
      ∧ (metadata_file (this m) id ∉ dirs (fs m))
      ∧ m' = Machine (this m)
               (<[l := metadata_record cfg (this m) id]> (heap m))
               (FileSystem ({[dataset_dir (this m) id]} ∪ dirs (fs m))
                  (<[metadata_file (this m) id :=
                       FJson (map_to_list (metadata_record cfg (this m) id))]>
                     (<[dataset_file (this m) id := FTensor d]> (files (fs m)))))
               (cuda_is_available m) (wandb_online m) runs.
Proof.
    unfold save_dataset.
    intros (o & ? & [= <- <-] & H)%bind_ok_inv.
    apply bind_ok_inv in H as (? & m1 & (Hfile & Hdir & ->)%makedirs_ok_inv & H).
    apply bind_ok_inv in H as (? & m2 & [Hdf ->]%write_file_ok_inv & H).
    apply bind_ok_inv in H as (md & ? & [= <- <-] & H).
    apply bind_ok_inv in H as (l & ? & Hl & H).
    cbn in Hl. destruct (config (this m)) as [l'|] eqn:Hcfg; [|done].
    injection Hl as -> <-.
    apply bind_ok_inv in H as (? & m3 & (d1 & Hd1 & ->)%setitem_ok_inv & H).
    apply bind_ok_inv in H as (? & m4 & (d2 & Hd2 & ->)%setitem_ok_inv & H).
    apply bind_ok_inv in H as (? & m5 & (d3 & Hd3 & ->)%setitem_ok_inv & H).
    apply bind_ok_inv in H as (? & m6 & (d4 & Hd4 & Hdev & ->)%delitem_ok_inv & H).
    apply bind_ok_inv in H as (? & m7 & (d5 & Hd5 & Hmf & ->)%json_dump_ok_inv & H).
    cbn in *. rewrite lookup_insert_eq in Hd2, Hd3, Hd4, Hd5. simplify_eq.
    rewrite !lookup_insert_ne in Hdev by done.
    apply not_elem_of_union in Hdf as [_ Hdf], Hmf as [_ Hmf].
    assert (∃ runs, m' = set_runs runs
              (Machine (this m)
                 (<[l := metadata_record d1 (this m) id]> (heap m))
                 (FileSystem ({[dataset_dir (this m) id]} ∪ dirs (fs m))
                    (<[metadata_file (this m) id :=
                         FJson (map_to_list (metadata_record d1 (this m) id))]>
                       (<[dataset_file (this m) id := FTensor d]> (files (fs m)))))
                 (cuda_is_available m) (wandb_online m) (wandb_runs m)))
      as [runs ->].
    { rewrite <- !metadata_record_code.
      unfold set_fs, set_heap in H. cbn in H. rewrite !insert_insert_eq in H.
      destruct log_to_wandb.
      - apply log_dataset_ok_inv in H as [runs ->]. by exists runs.
      - injection H as <-. by exists (wandb_runs m). }
    by exists l, d1, runs.
Qed.

Lemma save_dataset_prefix d id exist_ok log_to_wandb m :
    dataset_dir (this m) id ∉ dom (files (fs m)) →
    (dataset_dir (this m) id ∈ dirs (fs m) → exist_ok = true) →
    dataset_file (this m) id ∉ dirs (fs m) →
    save_dataset PROJECT ENTITY d id exist_ok log_to_wandb m
    = (md ← subscriptable (config (this m));
       setitem md "id" (VStr id);;
       setitem md "dataset_path" (VStr (dataset_file (this m) id));;
       setitem md "dataset_dir" (VStr (dataset_dir (this m) id));;
       delitem md "device";;
       json_dump md (metadata_file (this m) id);;
       if log_to_wandb then log_dataset d md PROJECT ENTITY else mret tt)
        (set_fs (FileSystem ({[dataset_dir (this m) id]} ∪ dirs (fs m))
                   (<[dataset_file (this m) id := FTensor d]> (files (fs m)))) m).
Proof.
    intros Hfile Hdir Hdf. unfold save_dataset.
    rewrite run_bind. cbn [gets].
    rewrite (run_bind_ok _ _ _ _ _ (makedirs_ok _ _ _ Hfile Hdir)).
    unfold torch_save. erewrite run_bind_ok; last first.
    { apply write_file_ok. cbn. apply not_elem_of_union. split; [|done].
      apply not_elem_of_singleton, dataset_file_ne_dataset_dir. }
    by destruct m.
Qed.
End SaveDataset.

(** ** What a generation does *)

Ltac solve_read_only :=
  repeat first
    [ progress eauto with read_only
    | apply read_only_bind; [eauto with read_only | intros ?]
    | progress cbv zeta
    | case_match
    | case_decide ].

Lemma run_ret {A B} (a : A) (k : A → M B) (m : machine) :
  (ret a ≫= k) m = k a m.
Proof. reflexivity. Qed.

Lemma run_modify {B} (f : machine → machine) (k : unit → M B) (m : machine) :
  (modify f ≫= k) m = k tt (f m).
Proof. reflexivity. Qed.

Lemma run_gets {A B} (f : machine → A) (k : A → M B) (m : machine) :
  (gets f ≫= k) m = k (f m) m.
Proof. reflexivity. Qed.

Lemma get_default_config_run (m : machine) :
  get_default_config m
  = (Ok (fresh (dom (heap m))),
     set_heap (<[fresh (dom (heap m)) := default_config (cuda_is_available m)]>
                 (heap m)) m).
Proof. reflexivity. Qed.

(** Where [generate_dataset] leaves the machine, whatever its outcome: the
    reference is stored first, and nothing after that writes. *)
Lemma generate_dataset_state (l : loc) (rnd : entropy) (m m' : machine) r :
  generate_dataset (Some l) rnd m = (r, m') →
  m' = set_this (Instance (save_dir (this m)) (Some l)) m.
Proof.
  unfold generate_dataset. rewrite run_ret, run_modify.
  intros H. rewrite read_only_run in H; [by injection H as _ <-|].
  solve_read_only.
Qed.

Lemma generate_dataset_default_state (rnd : entropy) (m m' : machine) r :
  generate_dataset None rnd m = (r, m') →
  m' = set_this (Instance (save_dir (this m)) (Some (fresh (dom (heap m)))))
         (set_heap (<[fresh (dom (heap m)) := default_config (cuda_is_available m)]>
                      (heap m)) m).
Proof.
  unfold generate_dataset.
  rewrite (run_bind_ok _ _ _ _ _ (get_default_config_run m)), run_modify.
  intros H. rewrite read_only_run in H; [by injection H as _ <-|].
  solve_read_only.
Qed.

Lemma run_lift_ok {A B} (r : result A) (a : A) (k : A → M B) (m : machine) :
  r = Ok a → (lift r ≫= k) m = k a m.
Proof. by intros ->. Qed.

Lemma as_size_of_nat (k : nat) : as_size (VInt (Z.of_nat k)) = Ok k.
Proof.
  unfold as_size. rewrite decide_True by lia. by rewrite Nat2Z.id.
Qed.

Lemma length_flat_map_const {A B} (f : A → list B) (l : list A) (k : nat) :
  (∀ a, length (f a) = k) → length (flat_map f l) = length l * k.
Proof.
  intros Hf. induction l as [|a l IH]; [done|].
  cbn. rewrite length_app, Hf, IH. lia.
Qed.

Lemma forallb_fmap_replicate {A B} (f : B → bool) (g : A → B) (x : A) (k : nat) :
  f (g x) = true → forallb f (g <$> replicate k x) = true.
Proof. intros H. induction k as [|k IH]; [done|]. cbn. by rewrite H. Qed.

(** A Bernoulli draw from a constant probability keeps the shape. *)
Lemma bernoulli_constant (prob : R) (size : list nat) (draw : nat → R) :
  (0 <= prob <= 1)%R →
  ∃ t, bernoulli (scale prob (ones size)) draw = Ok t ∧ shape t = size.
Proof.
  intros [H0 H1]. unfold bernoulli. cbn [data shape scale tensor_map ones].
  rewrite forallb_fmap_replicate; [eauto|].
  rewrite Rmult_1_r.
  by rewrite !bool_decide_eq_true_2.
Qed.

Lemma matmul_shape (a b : tensor) (p d n : nat) :
  shape a = [p; d] → shape b = [d; n] →
  ∃ t, matmul a b = Ok t ∧ shape t = [p; n] ∧ length (data t) = p * n.
Proof.
  intros Ha Hb. unfold matmul. rewrite Ha, Hb, decide_True by done.
  eexists. split; [done|]. split; [done|]. cbn.
  rewrite (length_flat_map_const _ _ n), length_seq; [done|].
  intros i. by rewrite length_fmap, length_seq.
Qed.

Lemma to_device_ok (t : tensor) (c : dict) (m : machine) :
  c !! "device" = Some (VStr "cpu")
  ∨ c !! "device" = Some (VStr "cuda") ∧ cuda_is_available m = true →
  ∃ v, c !! "device" = Some v ∧ to_device t v m = (Ok t, m).
Proof.
  intros [H|[H Hcuda]]; eexists; (split; [done|]); [done|].
  unfold to_device. rewrite decide_False, decide_True by done.
  by rewrite run_gets, Hcuda.
Qed.

Lemma generate_dataset_valid_aux (l : loc) (c : dict) (rnd : entropy)
    (m : machine) (d n np : nat) (nl : string) (sigma : R → R) :
  heap m !! l = Some c →
  valid_config (cuda_is_available m) c d n np →
  c !! "nonlinearity" = Some (VStr nl) →
  (if decide (nl = "relu") then ret relu
   else if decide (nl = "tanh") then ret tanh
        else raise NotImplementedError) = ret sigma →
  ∃ (sd : R) (xs : list R),
    generate_dataset (Some l) rnd m
    = (Ok (Tensor [np; n]
             (zip_with Rplus (sigma <$> xs)
                (Rmult sd <$> (noise_draw rnd <$> seq 0 (np * n))))),
       set_this (Instance (save_dir (this m)) (Some l)) m)
    ∧ length xs = np * n
    ∧ (∃ v, c !! "noise" = Some v ∧ as_number v = Ok sd).
Proof.
  intros Hl (Hfd & _ & HD & HN & HP & (vp & prob & Hp & Hprob & Hrange)
             & (vn & sd & Hnoise & Hsd) & Hdev) Hnl Hsigma.
  destruct (bernoulli_constant prob [np; d] (latent_draw rnd) Hrange)
    as (latent & Hlatent & Hlshape).
  destruct (matmul_shape latent (randn [d; n] (feature_draw rnd)) np d n
              Hlshape eq_refl) as (prod & Hprod & Hpshape & Hplen).
  set (m1 := set_this (Instance (save_dir (this m)) (Some l)) m).
  destruct (to_device_ok
              (tensor_add
                 (tensor_map sigma
                    (tensor_map (λ x, x / sqrt (IZR (Z.of_nat d)))%R prod))
                 (scale sd (randn [np; n] (noise_draw rnd)))) c m1 Hdev)
    as (vd & Hvd & Hto).
  exists sd, ((λ x, x / sqrt (IZR (Z.of_nat d)))%R <$> data prod).
  split; [|split; [by rewrite length_fmap|eauto]].
  unfold generate_dataset. rewrite run_ret, run_modify. fold m1.
  rewrite (run_bind_ok _ _ _ _ _ (getitem_ok l _ c _ m1 Hl Hfd)).
  rewrite decide_True, run_ret by done.
  rewrite (run_bind_ok _ _ _ _ _ (getitem_ok l _ c _ m1 Hl Hnl)).
  rewrite Hsigma, run_ret.
  rewrite (run_bind_ok _ _ _ _ _ (getitem_ok l _ c _ m1 Hl HD)).
  rewrite (run_bind_ok _ _ _ _ _ (getitem_ok l _ c _ m1 Hl HN)).
  rewrite (run_bind_ok _ _ _ _ _ (getitem_ok l _ c _ m1 Hl HP)).
  rewrite (run_bind_ok _ _ _ _ _ (getitem_ok l _ c _ m1 Hl Hp)).
  rewrite (run_bind_ok _ _ _ _ _ (getitem_ok l _ c _ m1 Hl Hnoise)).
  rewrite (run_bind_ok _ _ _ _ _ (getitem_ok l _ c _ m1 Hl Hvd)).
  rewrite (run_lift_ok _ _ _ _ (as_size_of_nat d)).
  rewrite (run_lift_ok _ _ _ _ (as_size_of_nat n)).
  cbv zeta.
  rewrite (run_lift_ok _ _ _ _ (as_size_of_nat np)).
  rewrite (run_lift_ok _ _ _ _ Hprob).
  rewrite (run_lift_ok _ _ _ _ Hlatent).
  rewrite (run_lift_ok _ _ _ _ Hprod).
  rewrite (run_lift_ok _ (IZR (Z.of_nat d)) _ _ eq_refl).
  rewrite (run_lift_ok _ _ _ _ Hsd).
  rewrite Hto. unfold tensor_add, scale, tensor_map, randn. cbn.
  by rewrite Hpshape, Nat.mul_1_r.
Qed.

(** A generation with a valid configuration succeeds; its result is the
    nonlinearity of [np * n] entries plus the scaled noise. *)
Lemma generate_dataset_valid (l : loc) (c : dict) (rnd : entropy) (m : machine)
    (d n np : nat) :
  heap m !! l = Some c →
  valid_config (cuda_is_available m) c d n np →
  ∃ (sigma : R → R) (sd : R) (xs : list R),
    generate_dataset (Some l) rnd m
    = (Ok (Tensor [np; n]
             (zip_with Rplus (sigma <$> xs)
                (Rmult sd <$> (noise_draw rnd <$> seq 0 (np * n))))),
       set_this (Instance (save_dir (this m)) (Some l)) m)
    ∧ length xs = np * n
    ∧ (c !! "nonlinearity" = Some (VStr "relu") → sigma = relu)
    ∧ (c !! "nonlinearity" = Some (VStr "tanh") → sigma = tanh)
    ∧ (∃ v, c !! "noise" = Some v ∧ as_number v = Ok sd).
Proof.
  intros Hl Hvalid. pose proof Hvalid as (_ & [Hnl|Hnl] & _).
  - destruct (generate_dataset_valid_aux l c rnd m d n np "relu" relu)
      as (sd & xs & Hrun & Hlen & Hsd); [done..|].
    exists relu, sd, xs. split_and!; [done..| |done].
    rewrite Hnl. by intros [=].
  - destruct (generate_dataset_valid_aux l c rnd m d n np "tanh" tanh)
      as (sd & xs & Hrun & Hlen & Hsd); [done..|].
    exists tanh, sd, xs. split_and!; [done| done| |done..].
    rewrite Hnl. by intros [=].
Qed.

(** ** Saving and loading *)

Lemma json_load_ok (path : string) (md : dict) (m : machine) :
  path ∉ dirs (fs m) →
  files (fs m) !! path = Some (FJson (map_to_list md)) →
  json_load path m
  = (Ok (fresh (dom (heap m))), set_heap (<[fresh (dom (heap m)) := md]> (heap m)) m).
Proof.
  intros Hdir Hfile. unfold json_load.
  rewrite (run_bind_ok _ _ _ _ _ (read_file_ok _ _ _ Hdir Hfile)).
  by rewrite json_members_roundtrip.
Qed.

Lemma torch_load_ok (path : string) (t : tensor) (m : machine) :
  path ∉ dirs (fs m) →
  files (fs m) !! path = Some (FTensor t) →
  torch_load (VStr path) m = (Ok t, m).
Proof.
  intros Hdir Hfile. unfold torch_load.
  by rewrite (run_bind_ok _ _ _ _ _ (read_file_ok _ _ _ Hdir Hfile)).
Qed.

Section PersistenceProperties.
Context (PROJECT ENTITY : string).

  (** The preconditions under which a save goes through, and the machine
      it leaves. *)
Lemma save_dataset_ok d id exist_ok log_to_wandb l cfg m :
    config (this m) = Some l →
    heap m !! l = Some cfg →
    is_Some (cfg !! "device") →
    dataset_dir (this m) id ∉ dom (files (fs m)) →
    (dataset_dir (this m) id ∈ dirs (fs m) → exist_ok = true) →
    dataset_file (this m) id ∉ dirs (fs m) →
    metadata_file (this m) id ∉ dirs (fs m) →
    (log_to_wandb = true → wandb_online m = true) →
    save_dataset PROJECT ENTITY d id exist_ok log_to_wandb m
    = (Ok tt,
       Machine (this m)
         (<[l := metadata_record cfg (this m) id]> (heap m))
         (FileSystem ({[dataset_dir (this m) id]} ∪ dirs (fs m))
            (<[metadata_file (this m) id :=
                 FJson (map_to_list (metadata_record cfg (this m) id))]>
               (<[dataset_file (this m) id := FTensor d]> (files (fs m)))))
         (cuda_is_available m) (wandb_online m)
         (if log_to_wandb
          then wandb_runs m
               ++ [Run PROJECT ENTITY d (metadata_record cfg (this m) id)]
          else wandb_runs m)).
Proof.
    intros Hcfg Hl Hdev Hfile Hdir Hdf Hmf Hlog.
    rewrite save_dataset_prefix by done. rewrite Hcfg.
    unfold subscriptable. rewrite run_ret.
    erewrite run_bind_ok; [|by apply setitem_ok].
    erewrite run_bind_ok; [|by apply setitem_ok, lookup_insert_eq].
    erewrite run_bind_ok; [|by apply setitem_ok, lookup_insert_eq].
    erewrite run_bind_ok; last first.
    { apply delitem_ok; [apply lookup_insert_eq|].
      by rewrite !lookup_insert_ne. }
    erewrite run_bind_ok; last first.
    { apply json_dump_ok; [apply lookup_insert_eq|]. cbn.
      apply not_elem_of_union. split; [|done].
      apply not_elem_of_singleton, metadata_file_ne_dataset_dir. }
    unfold set_fs, set_heap. cbn. rewrite !insert_insert_eq.
    fold (dataset_dir (this m) id). fold (dataset_file (this m) id).
    fold (metadata_file (this m) id).
    rewrite !metadata_record_code.
    destruct log_to_wandb; [|done].
    unfold log_dataset. erewrite run_bind_ok; [|by apply read_dict_ok, lookup_insert_eq].
    by rewrite run_gets, (Hlog eq_refl).
Qed.

Lemma load_dataset_ok id d (md : dict) m :
    metadata_file (this m) id ∉ dirs (fs m) →
    files (fs m) !! metadata_file (this m) id = Some (FJson (map_to_list md)) →
    md !! "dataset_path" = Some (VStr (dataset_file (this m) id)) →
    dataset_file (this m) id ∉ dirs (fs m) →
    files (fs m) !! dataset_file (this m) id = Some (FTensor d) →
    load_dataset id m
    = (Ok (d, fresh (dom (heap m))),
       set_heap (<[fresh (dom (heap m)) := md]> (heap m)) m).
Proof.
    intros Hmf Hmeta Hpath Hdf Hdata. unfold load_dataset.
    rewrite run_gets.
    rewrite (run_bind_ok _ _ _ _ _ (json_load_ok _ _ _ Hmf Hmeta)).
    erewrite run_bind_ok; last first.
    { by eapply getitem_ok; [apply lookup_insert_eq|]. }
    erewrite run_bind_ok; [done|].
    apply torch_load_ok; [exact Hdf | exact Hdata].
Qed.

Lemma save_dataset_key_error d id exist_ok log_to_wandb l md m :
    config (this m) = Some l →
    heap m !! l = Some md →
    md !! "device" = None →
    dataset_dir (this m) id ∉ dom (files (fs m)) →
    (dataset_dir (this m) id ∈ dirs (fs m) → exist_ok = true) →
    dataset_file (this m) id ∉ dirs (fs m) →
    save_dataset PROJECT ENTITY d id exist_ok log_to_wandb m
    = (Raise (KeyError "device"),
       Machine (this m)
         (<[l := <["dataset_dir" := VStr (dataset_dir (this m) id)]>
                   (<["dataset_path" := VStr (dataset_file (this m) id)]>
                      (<["id" := VStr id]> md))]> (heap m))
         (FileSystem ({[dataset_dir (this m) id]} ∪ dirs (fs m))
            (<[dataset_file (this m) id := FTensor d]> (files (fs m))))
         (cuda_is_available m) (wandb_online m) (wandb_runs m)).
Proof.
    intros Hcfg Hl Hdev Hfile Hdir Hdf.
    rewrite save_dataset_prefix by done. rewrite Hcfg.
    unfold subscriptable. rewrite run_ret.
    erewrite run_bind_ok; [|by apply setitem_ok].
    erewrite run_bind_ok; [|by apply setitem_ok, lookup_insert_eq].
    erewrite run_bind_ok; [|by apply setitem_ok, lookup_insert_eq].
    erewrite run_bind_raise; last first.
    { eapply delitem_missing; [apply lookup_insert_eq|].
      by rewrite !lookup_insert_ne. }
    unfold set_fs, set_heap. cbn. by rewrite !insert_insert_eq.
Qed.

Lemma save_dataset_type_error d id exist_ok log_to_wandb m :
    config (this m) = None →
    dataset_dir (this m) id ∉ dom (files (fs m)) →
    (dataset_dir (this m) id ∈ dirs (fs m) → exist_ok = true) →
    dataset_file (this m) id ∉ dirs (fs m) →
    save_dataset PROJECT ENTITY d id exist_ok log_to_wandb m
    = (Raise TypeError,
       set_fs (FileSystem ({[dataset_dir (this m) id]} ∪ dirs (fs m))
                 (<[dataset_file (this m) id := FTensor d]> (files (fs m)))) m).
Proof.
    intros Hcfg Hfile Hdir Hdf.
    rewrite save_dataset_prefix by done. by rewrite Hcfg.
Qed.

End PersistenceProperties.

Lemma generate_dataset_stored (c : option loc) (rnd : entropy) r (m0 m1 : machine) :
  generate_dataset c rnd m0 = (r, m1) →
  ∃ l, config (this m1) = Some l
       ∧ save_dir (this m1) = save_dir (this m0)
       ∧ fs m1 = fs m0
       ∧ match c with
         | Some l0 => l = l0 ∧ heap m1 = heap m0
         | None => heap m0 !! l = None
                   ∧ heap m1 = <[l := default_config (cuda_is_available m0)]> (heap m0)
         end.
Proof.
  destruct c as [l0|]; intros H.
  - apply generate_dataset_state in H as ->. by exists l0.
  - apply generate_dataset_default_state in H as ->.
    exists (fresh (dom (heap m0))). split_and!; try done.
    apply not_elem_of_dom, is_fresh.
Qed.

(** ** The claims about persistence *)

Section PersistenceClaims.
Context (PROJECT ENTITY : string).

(** C1: after a successful [generate_dataset] and a successful
    [save_dataset d id], [load_dataset id] returns the tensor [d] itself and
    a new metadata dict that equals the record written at save time: the
    configuration used for the generation without ["device"], plus ["id"],
    ["dataset_path"] and ["dataset_dir"]. *)
Theorem save_load_roundtrip (c : option loc) (rnd : entropy) (t d : tensor)
    (id : string) (exist_ok log_to_wandb : bool) (m0 m1 m2 : machine) :
  generate_dataset c rnd m0 = (Ok t, m1) →
  save_dataset PROJECT ENTITY d id exist_ok log_to_wandb m1 = (Ok tt, m2) →
  ∃ (l : loc) (cfg : dict) (l' : loc) (m3 : machine),
    config (this m1) = Some l
    ∧ heap m1 !! l = Some cfg
    ∧ match c with
      | Some l0 => l = l0 ∧ heap m0 !! l0 = Some cfg
      | None => cfg = default_config (cuda_is_available m0)
      end
    ∧ files (fs m2) !! metadata_file (this m1) id
      = Some (FJson (map_to_list (metadata_record cfg (this m1) id)))
    ∧ load_dataset id m2 = (Ok (d, l'), m3)
    ∧ heap m3 !! l' = Some (metadata_record cfg (this m1) id).
Proof.
  intros Hgen Hsave.
  apply generate_dataset_stored in Hgen as (l0 & Hl0 & _ & _ & Hc).
  apply save_dataset_ok_inv in Hsave
    as (l & cfg & runs & Hl & Hcfg & _ & _ & _ & Hdf & Hmf & ->).
  assert (l0 = l) as -> by congruence.
  eexists l, cfg, _, _. split_and!; [done..| | | |].
  - destruct c as [l0|]; destruct Hc as [Hc1 Hc2].
    + subst. by rewrite <- Hc2.
    + rewrite Hc2, lookup_insert_eq in Hcfg. by injection Hcfg.
  - cbn. apply lookup_insert_eq.
  - apply (load_dataset_ok id d (metadata_record cfg (this m1) id)); cbn.
    + apply not_elem_of_union. split; [|done].
      apply not_elem_of_singleton, metadata_file_ne_dataset_dir.
    + apply lookup_insert_eq.
    + unfold metadata_record. by rewrite lookup_insert_ne, lookup_insert_eq.
    + apply not_elem_of_union. split; [|done].
      apply not_elem_of_singleton, dataset_file_ne_dataset_dir.
    + rewrite lookup_insert_ne by (symmetry; apply dataset_file_ne_metadata_file).
      apply lookup_insert_eq.
  - cbn. apply lookup_insert_eq.
Qed.

(** C2: what the code does instead of keeping the retained configuration
    fixed: a successful [save_dataset] rewrites the very dict that
    [get_config] returns, which afterwards carries ["id"] and no longer
    carries ["device"]. *)
Theorem save_dataset_rewrites_config (c : option loc) (rnd : entropy)
    (t d : tensor) (id : string) (exist_ok log_to_wandb : bool)
    (m0 m1 m2 : machine) :
  generate_dataset c rnd m0 = (Ok t, m1) →
  save_dataset PROJECT ENTITY d id exist_ok log_to_wandb m1 = (Ok tt, m2) →
  ∃ (l : loc) (before after : dict),
    get_config m1 = (Ok (Some l), m1)
    ∧ get_config m2 = (Ok (Some l), m2)
    ∧ heap m1 !! l = Some before
    ∧ heap m2 !! l = Some after
    ∧ after = metadata_record before (this m1) id
    ∧ is_Some (before !! "device")
    ∧ after !! "device" = None
    ∧ after !! "id" = Some (VStr id).
Proof.
  intros _ Hsave.
  apply save_dataset_ok_inv in Hsave
    as (l & cfg & runs & Hl & Hcfg & Hdev & _ & _ & _ & _ & ->).
  exists l, cfg, (metadata_record cfg (this m1) id).
  unfold get_config, gets. cbn. rewrite Hl. split_and!; try done.
  - apply lookup_insert_eq.
  - unfold metadata_record. rewrite !lookup_insert_ne by done.
    apply lookup_delete_eq.
  - unfold metadata_record. rewrite !lookup_insert_ne by done.
    apply lookup_insert_eq.
Qed.

(** C6: [save_dataset] with [exist_ok=False] on a target directory that is
    already there raises [FileExistsError] and leaves the whole machine, the
    file system included, as it was. *)
Theorem save_dataset_existing_dir (d : tensor) (id : string)
    (log_to_wandb : bool) (m : machine) :
  dataset_dir (this m) id ∈ dirs (fs m) →
  save_dataset PROJECT ENTITY d id false log_to_wandb m
  = (Raise (FileExistsError (dataset_dir (this m) id)), m).
Proof.
  intros Hdir. unfold save_dataset. rewrite run_gets.
  by rewrite (run_bind_raise _ _ _ _ _ (makedirs_exists _ _ Hdir)).
Qed.

(** C8: after a successful generation and a first successful save, a second
    save on the same instance whose directory can be created (fresh, or
    [exist_ok=True]) raises [KeyError "device"]: the dict that [get_config]
    returns lost the key in the first save. The error comes after the
    directory has been created and the dataset file written. *)
Theorem second_save_raises_key_error (c : option loc) (rnd : entropy)
    (t d1 d2 : tensor) (id1 id2 : string) (exist_ok1 log1 exist_ok2 log2 : bool)
    (m0 m1 m2 : machine) :
  generate_dataset c rnd m0 = (Ok t, m1) →
  save_dataset PROJECT ENTITY d1 id1 exist_ok1 log1 m1 = (Ok tt, m2) →
  dataset_dir (this m2) id2 ∉ dom (files (fs m2)) →
  (dataset_dir (this m2) id2 ∈ dirs (fs m2) → exist_ok2 = true) →
  dataset_file (this m2) id2 ∉ dirs (fs m2) →
  ∃ (l : loc) (md : dict) (m3 : machine),
    get_config m1 = (Ok (Some l), m1)
    ∧ get_config m2 = (Ok (Some l), m2)
    ∧ heap m2 !! l = Some md
    ∧ md !! "device" = None
    ∧ save_dataset PROJECT ENTITY d2 id2 exist_ok2 log2 m2
      = (Raise (KeyError "device"), m3)
    ∧ dataset_dir (this m2) id2 ∈ dirs (fs m3)
    ∧ files (fs m3) !! dataset_file (this m2) id2 = Some (FTensor d2)
    ∧ files (fs m3) !! metadata_file (this m2) id2
      = files (fs m2) !! metadata_file (this m2) id2.
Proof.
  intros _ Hsave Hfile Hdir Hdf.
  apply save_dataset_ok_inv in Hsave
    as (l & cfg & runs & Hl & Hcfg & Hdev & _ & _ & _ & _ & Hm2).
  assert (config (this m2) = Some l) as Hl2 by (by subst).
  assert (heap m2 !! l = Some (metadata_record cfg (this m1) id1)) as Hmd.
  { subst. apply lookup_insert_eq. }
  assert (metadata_record cfg (this m1) id1 !! "device" = None) as Hnodev.
  { unfold metadata_record. rewrite !lookup_insert_ne by done.
    apply lookup_delete_eq. }
  eexists l, _, _.
  split_and!; [by unfold get_config, gets; rewrite Hl
              |by unfold get_config, gets; rewrite Hl2|done..| | | |].
  - by apply save_dataset_key_error.
  - cbn. apply elem_of_union_l, elem_of_singleton. done.
  - cbn. apply lookup_insert_eq.
  - cbn. apply lookup_insert_ne, dataset_file_ne_metadata_file.
Qed.

(** C10: [save_dataset] on an instance that never generated (its stored
    config is [None]) always raises; when its directory can be created and
    its dataset file written, the error is the [TypeError] of the item
    assignment on [None], raised after the directory exists and
    [dataset.pt] holds the tensor, and [metadata.json] is not written. *)
Theorem save_before_generate (d : tensor) (id : string)
    (exist_ok log_to_wandb : bool) (m : machine) :
  config (this m) = None →
  (∃ err m', save_dataset PROJECT ENTITY d id exist_ok log_to_wandb m
             = (Raise err, m'))
  ∧ (dataset_dir (this m) id ∉ dom (files (fs m)) →
     (dataset_dir (this m) id ∈ dirs (fs m) → exist_ok = true) →
     dataset_file (this m) id ∉ dirs (fs m) →
     ∃ m', save_dataset PROJECT ENTITY d id exist_ok log_to_wandb m
           = (Raise TypeError, m')
           ∧ dataset_dir (this m) id ∈ dirs (fs m')
           ∧ files (fs m') !! dataset_file (this m) id = Some (FTensor d)
           ∧ files (fs m') !! metadata_file (this m) id
             = files (fs m) !! metadata_file (this m) id).
Proof.
  intros Hnone. split.
  - destruct (save_dataset PROJECT ENTITY d id exist_ok log_to_wandb m)
      as [[u|err] m'] eqn:Hsave; [|eauto].
    apply save_dataset_ok_inv in Hsave as (l & ? & ? & Hl & _). congruence.
  - intros Hfile Hdir Hdf. eexists. split_and!.
    + by apply save_dataset_type_error.
    + cbn. apply elem_of_union_l, elem_of_singleton. done.
    + cbn. apply lookup_insert_eq.
    + cbn. apply lookup_insert_ne, dataset_file_ne_metadata_file.
Qed.

End PersistenceClaims.

(** ** The claims about persistence at a concrete machine *)

Lemma small_config_valid : valid_config false small_config 2 3 2.
Proof.
  unfold valid_config. split_and!; try done.
  - by left.
  - exists (VFloat (1 / 2)), (1 / 2)%R. split_and!; try done; lra.
  - by exists (VFloat 0), 0%R.
  - by left.
Qed.

Lemma small_generation :
  ∃ t, generate_dataset (Some 0) still_entropy with_small_config = (Ok t, generated).
Proof.
  destruct (generate_dataset_valid 0 small_config still_entropy
              with_small_config 2 3 2 eq_refl small_config_valid)
    as (sigma & sd & xs & Hgen & _).
  eauto.
Qed.

Lemma small_save (d : tensor) :
  ∃ m2, save_dataset "jepa" "lab" d "demo" false false generated = (Ok tt, m2)
        ∧ this m2 = this generated
        ∧ dirs (fs m2) = {[ "data/rf_demo" ]}
        ∧ dom (files (fs m2))
          = {[ "data/rf_demo/dataset.pt"; "data/rf_demo/metadata.json" ]}.
Proof.
  eexists. split.
  - apply (save_dataset_ok "jepa" "lab" d "demo" false false 0 small_config);
      try done.
  - by split_and!.
Qed.

Lemma save_load_roundtrip_witness :
  ∃ (t : tensor) (m2 : machine) (l' : loc) (m3 : machine),
    generate_dataset (Some 0) still_entropy with_small_config = (Ok t, generated)
    ∧ save_dataset "jepa" "lab" one_point "demo" false false generated = (Ok tt, m2)
    ∧ load_dataset "demo" m2 = (Ok (one_point, l'), m3)
    ∧ heap m3 !! l' = Some (metadata_record small_config (this generated) "demo").
Proof.
  destruct small_generation as [t Hgen].
  destruct (small_save one_point) as (m2 & Hsave & _).
  destruct (save_load_roundtrip "jepa" "lab" (Some 0) still_entropy t one_point
              "demo" false false with_small_config generated m2 Hgen Hsave)
    as (l & cfg & l' & m3 & _ & _ & [_ Hcfg] & _ & Hload & Hmd).
  assert (cfg = small_config) as -> by (by injection Hcfg).
  by exists t, m2, l', m3.
Defined.

Lemma save_dataset_rewrites_config_witness :
  ∃ (t : tensor) (m2 : machine) (after : dict),
    generate_dataset (Some 0) still_entropy with_small_config = (Ok t, generated)
    ∧ save_dataset "jepa" "lab" one_point "demo" false false generated = (Ok tt, m2)
    ∧ get_config generated = (Ok (Some 0), generated)
    ∧ get_config m2 = (Ok (Some 0), m2)
    ∧ heap generated !! 0 = Some small_config
    ∧ heap m2 !! 0 = Some after
    ∧ small_config !! "device" = Some (VStr "cpu")
    ∧ after !! "device" = None
    ∧ after !! "id" = Some (VStr "demo").
Proof.
  destruct small_generation as [t Hgen].
  destruct (small_save one_point) as (m2 & Hsave & _).
  destruct (save_dataset_rewrites_config "jepa" "lab" (Some 0) still_entropy t
              one_point "demo" false false with_small_config generated m2
              Hgen Hsave)
    as (l & before & after & Hl & Hl2 & Hbefore & Hafter & _ & _ & Hdev & Hid).
  assert (l = 0) as -> by (by injection Hl).
  by exists t, m2, after.
Defined.

Lemma save_dataset_existing_dir_witness :
  save_dataset "jepa" "lab" one_point "demo" false true with_demo_dir
  = (Raise (FileExistsError "data/rf_demo"), with_demo_dir).
Proof.
  apply (save_dataset_existing_dir "jepa" "lab" one_point "demo" true with_demo_dir).
  change ("data/rf_demo" ∈ ({[ "data/rf_demo" ]} : gset string)).
  by apply elem_of_singleton_2.
Defined.

Lemma second_save_raises_key_error_witness :
  ∃ (t : tensor) (m2 m3 : machine),
    generate_dataset (Some 0) still_entropy with_small_config = (Ok t, generated)
    ∧ save_dataset "jepa" "lab" one_point "demo" false false generated = (Ok tt, m2)
    ∧ save_dataset "jepa" "lab" one_point "again" false false m2
      = (Raise (KeyError "device"), m3)
    ∧ "data/rf_again" ∈ dirs (fs m3)
    ∧ files (fs m3) !! "data/rf_again/dataset.pt" = Some (FTensor one_point)
    ∧ files (fs m3) !! "data/rf_again/metadata.json" = None.
Proof.
  destruct small_generation as [t Hgen].
  destruct (small_save one_point) as (m2 & Hsave & Hthis & Hdirs & Hfiles).
  assert (dataset_dir (this m2) "again" = "data/rf_again"
          ∧ dataset_file (this m2) "again" = "data/rf_again/dataset.pt"
          ∧ metadata_file (this m2) "again" = "data/rf_again/metadata.json")
    as (Hdir & Hdf & Hmf) by (by rewrite Hthis).
  destruct (second_save_raises_key_error "jepa" "lab" (Some 0) still_entropy t
              one_point one_point "demo" "again" false false false false
              with_small_config generated m2 Hgen Hsave)
    as (l & md & m3 & _ & _ & _ & _ & Hsecond & Hin & Hdata & Hmeta).
  - rewrite Hdir, Hfiles, not_elem_of_union, !not_elem_of_singleton. done.
  - rewrite Hdir, Hdirs, elem_of_singleton. done.
  - rewrite Hdf, Hdirs, not_elem_of_singleton. done.
  - rewrite Hdir in Hin. rewrite Hdf in Hdata. rewrite Hmf in Hmeta.
    exists t, m2, m3. split_and!; try done.
    rewrite Hmeta. apply not_elem_of_dom.
    rewrite Hfiles, not_elem_of_union, !not_elem_of_singleton. done.
Defined.

Lemma save_before_generate_witness :
  ∃ m', save_dataset "jepa" "lab" one_point "demo" false false booted
        = (Raise TypeError, m')
        ∧ "data/rf_demo" ∈ dirs (fs m')
        ∧ files (fs m') !! "data/rf_demo/dataset.pt" = Some (FTensor one_point)
        ∧ files (fs m') !! "data/rf_demo/metadata.json" = None.
Proof.
  destruct (save_before_generate "jepa" "lab" one_point "demo" false false
              booted eq_refl) as [_ H].
  apply H.
  - by apply not_elem_of_dom.
  - by intros ?%elem_of_empty.
  - apply not_elem_of_empty.
Defined.

(** ** Which errors the generator raises *)

Lemma implemented_bind {A B} (c : M A) (k : A → M B) :
  implemented c → (∀ a, implemented (k a)) → implemented (c ≫= k).
Proof.
  intros Hc Hk m. rewrite run_bind. specialize (Hc m).
  destruct (c m) as [[a|e] m1]; [apply Hk|]. cbn in *. congruence.
Qed.

Lemma implemented_ret {A} (a : A) : implemented (ret a).
Proof. done. Qed.

Lemma implemented_getitem l k : implemented (getitem l k).
Proof.
  intros m. unfold getitem. rewrite run_bind. unfold read_dict.
  destruct (heap m !! l) as [d|]; [|done]. by destruct (d !! k).
Qed.

Lemma implemented_lift {A} (r : result A) :
  r ≠ Raise NotImplementedError → implemented (lift r).
Proof. intros H m. exact H. Qed.

Lemma as_size_implemented v : as_size v ≠ Raise NotImplementedError.
Proof. destruct v; cbn; [done| |done]. by case_decide. Qed.

Lemma as_number_implemented v : as_number v ≠ Raise NotImplementedError.
Proof. by destruct v. Qed.

Lemma bernoulli_implemented t draw : bernoulli t draw ≠ Raise NotImplementedError.
Proof. unfold bernoulli. by destruct (forallb _ _). Qed.

Lemma matmul_implemented a b : matmul a b ≠ Raise NotImplementedError.
Proof. unfold matmul. repeat case_match; done. Qed.

Lemma implemented_to_device t v : implemented (to_device t v).
Proof.
  intros m. destruct v as [s| |]; try done. unfold to_device.
  repeat case_decide; try done.
  rewrite run_gets. by destruct (cuda_is_available m).
Qed.

Create HintDb implemented.
#[local] Hint Resolve implemented_ret implemented_getitem implemented_lift
  as_size_implemented as_number_implemented bernoulli_implemented
  matmul_implemented implemented_to_device : implemented.

Ltac solve_implemented :=
  repeat first
    [ progress eauto with implemented
    | apply implemented_bind; [eauto with implemented | intros ?]
    | progress cbv zeta ].

Lemma generate_dataset_bad_distribution (l : loc) (c : dict) (rnd : entropy)
    (m : machine) (fd : value) :
  heap m !! l = Some c →
  c !! "feature_distribution" = Some fd →
  fd ≠ VStr "gaussian" →
  generate_dataset (Some l) rnd m
  = (Raise NotImplementedError, set_this (Instance (save_dir (this m)) (Some l)) m).
Proof.
  intros Hl Hfd Hne. unfold generate_dataset. rewrite run_ret, run_modify.
  set (m1 := set_this _ m).
  rewrite (run_bind_ok _ _ _ _ _ (getitem_ok l _ c _ m1 Hl Hfd)).
  destruct fd as [s| |]; try done.
  destruct (decide (s = "gaussian")) as [->|]; done.
Qed.

Lemma generate_dataset_bad_nonlinearity (l : loc) (c : dict) (rnd : entropy)
    (m : machine) (nl : value) :
  heap m !! l = Some c →
  is_Some (c !! "feature_distribution") →
  c !! "nonlinearity" = Some nl →
  nl ≠ VStr "relu" → nl ≠ VStr "tanh" →
  generate_dataset (Some l) rnd m
  = (Raise NotImplementedError, set_this (Instance (save_dir (this m)) (Some l)) m).
Proof.
  intros Hl [fd Hfd] Hnl Hrelu Htanh.
  assert (fd = VStr "gaussian" ∨ fd ≠ VStr "gaussian") as [->|Hne].
  { destruct fd as [s| |]; try by right.
    destruct (decide (s = "gaussian")) as [->|]; [by left | right; congruence]. }
  2: by eapply generate_dataset_bad_distribution.
  unfold generate_dataset. rewrite run_ret, run_modify.
  set (m1 := set_this _ m).
  rewrite (run_bind_ok _ _ _ _ _ (getitem_ok l _ c _ m1 Hl Hfd)).
  rewrite decide_True, run_ret by done.
  rewrite (run_bind_ok _ _ _ _ _ (getitem_ok l _ c _ m1 Hl Hnl)).
  destruct nl as [s| |]; try done.
  destruct (decide (s = "relu")) as [->|]; [done|].
  destruct (decide (s = "tanh")) as [->|]; done.
Qed.

(** Past the two dispatches nothing raises [NotImplementedError]. *)
Lemma generate_dataset_supported (l : loc) (c : dict) (rnd : entropy)
    (m : machine) :
  heap m !! l = Some c →
  c !! "feature_distribution" = Some (VStr "gaussian") →
  c !! "nonlinearity" = Some (VStr "relu")
  ∨ c !! "nonlinearity" = Some (VStr "tanh") →
  (generate_dataset (Some l) rnd m).1 ≠ Raise NotImplementedError.
Proof.
  intros Hl Hfd Hnl. unfold generate_dataset. rewrite run_ret, run_modify.
  set (m1 := set_this _ m).
  rewrite (run_bind_ok _ _ _ _ _ (getitem_ok l _ c _ m1 Hl Hfd)).
  rewrite decide_True, run_ret by done.
  destruct Hnl as [Hnl|Hnl];
    rewrite (run_bind_ok _ _ _ _ _ (getitem_ok l _ c _ m1 Hl Hnl)).
  - rewrite decide_True, run_ret by done.
    match goal with
    | |- (?c _).1 ≠ _ => cut (implemented c); [intros Hc; apply Hc|]
    end.
    solve_implemented.
  - rewrite decide_False, decide_True, run_ret by done.
    match goal with
    | |- (?c _).1 ≠ _ => cut (implemented c); [intros Hc; apply Hc|]
    end.
    solve_implemented.
Qed.

Lemma generate_dataset_default_supported (rnd : entropy) (m : machine) :
  (generate_dataset None rnd m).1 ≠ Raise NotImplementedError.
Proof.
  unfold generate_dataset.
  rewrite (run_bind_ok _ _ _ _ _ (get_default_config_run m)).
  apply (generate_dataset_supported _ (default_config (cuda_is_available m))).
  - apply lookup_insert_eq.
  - done.
  - by right.
Qed.

(** ** The claims about the generator *)

(** C5: a configuration whose feature distribution is not ["gaussian"],
    and a configuration whose nonlinearity is neither ["relu"] nor
    ["tanh"], make [generate_dataset] raise [NotImplementedError]; with
    ["gaussian"] and one of the two nonlinearities, and with the default
    configuration, that error is not raised. A configuration carries the
    parameters that [get_default_config] lists (the docstring of
    [generate_dataset]); the second statement uses of them that the feature
    distribution is there, because it is dispatched first. *)
Theorem generate_dataset_unsupported (l : loc) (c : dict) (rnd : entropy)
    (m : machine) :
  heap m !! l = Some c →
  (∀ fd, c !! "feature_distribution" = Some fd → fd ≠ VStr "gaussian" →
         (generate_dataset (Some l) rnd m).1 = Raise NotImplementedError)
  ∧ (∀ nl, is_Some (c !! "feature_distribution") →
           c !! "nonlinearity" = Some nl →
           nl ≠ VStr "relu" → nl ≠ VStr "tanh" →
           (generate_dataset (Some l) rnd m).1 = Raise NotImplementedError)
  ∧ (c !! "feature_distribution" = Some (VStr "gaussian") →
     c !! "nonlinearity" = Some (VStr "relu")
     ∨ c !! "nonlinearity" = Some (VStr "tanh") →
     (generate_dataset (Some l) rnd m).1 ≠ Raise NotImplementedError)
  ∧ (generate_dataset None rnd m).1 ≠ Raise NotImplementedError.
Proof.
  intros Hl. split_and!.
  - intros fd Hfd Hne.
    by rewrite (generate_dataset_bad_distribution l c rnd m fd).
  - intros nl Hfd Hnl Hrelu Htanh.
    by rewrite (generate_dataset_bad_nonlinearity l c rnd m nl).
  - intros Hfd Hnl. by eapply generate_dataset_supported.
  - apply generate_dataset_default_supported.
Qed.

(** C9: a call of [generate_dataset] that ends in [NotImplementedError]
    was given a configuration, and has stored it: afterwards [get_config]
    returns the reference of that very dict, whatever the instance retained
    before; dicts and files are as they were. *)
Theorem failed_generation_keeps_config (c : option loc) (rnd : entropy)
    (m m' : machine) :
  generate_dataset c rnd m = (Raise NotImplementedError, m') →
  ∃ l, c = Some l
       ∧ get_config m' = (Ok (Some l), m')
       ∧ heap m' = heap m
       ∧ fs m' = fs m.
Proof.
  intros H. destruct c as [l|].
  - apply generate_dataset_state in H as ->. by exists l.
  - pose proof (generate_dataset_default_supported rnd m) as Hno.
    by rewrite H in Hno.
Qed.

Lemma Forall_zip_with_nonneg (xs ys : list R) :
  Forall (λ x, 0 <= x)%R xs → Forall (λ y, y = 0%R) ys →
  Forall (λ z, 0 <= z)%R (zip_with Rplus xs ys).
Proof.
  intros Hxs. revert ys. induction Hxs as [|x xs Hx _ IH]; intros ys Hys; [done|].
  destruct Hys as [|y ys -> Hys]; [done|]. cbn. constructor; [lra | by apply IH].
Qed.

Lemma relu_nonneg (xs : list R) : Forall (λ x, 0 <= x)%R (relu <$> xs).
Proof. apply Forall_fmap, Forall_true. intros x. apply Rmax_l. Qed.

Lemma zero_scaled (zs : list R) : Forall (λ y, y = 0%R) (Rmult 0 <$> zs).
Proof. apply Forall_fmap, Forall_true. intros z. cbn. lra. Qed.

(** ** Building a configuration *)

Lemma set_heap_same (m : machine) (h : gmap loc dict) : heap m = h → set_heap h m = m.
Proof. intros <-. by destruct m. Qed.

(** The loop assigns the overrides from left to right. *)
Lemma build_config_loop_ok (l : loc) (kwargs : list (string * value))
    (d : dict) (m : machine) :
  heap m !! l = Some d →
  Forall (λ kv, kv.1 ∈ dom d) kwargs →
  build_config_loop l kwargs m
  = (Ok tt,
     set_heap (<[l := foldl (λ acc kv, <[kv.1 := kv.2]> acc) d kwargs]> (heap m)) m).
Proof.
  revert d m. induction kwargs as [|[key v] rest IH]; intros d m Hl Hkeys.
  - cbn. f_equal. symmetry. apply set_heap_same. symmetry. by apply insert_id.
  - apply Forall_cons in Hkeys as [Hkey Hrest].
    apply elem_of_dom in Hkey as [old Hold]. cbn [build_config_loop].
    rewrite (run_bind_ok _ _ _ _ _ (read_dict_ok _ _ _ Hl)). cbn in Hold.
    rewrite Hold.
    rewrite (run_bind_ok _ _ _ _ _ (setitem_ok l key v d m Hl)).
    rewrite (IH (<[key := v]> d)).
    + cbn. unfold set_heap. cbn. by rewrite insert_insert_eq.
    + apply lookup_insert_eq.
    + eapply Forall_impl; [exact Hrest|]. intros kv Hkv. cbn in *.
      rewrite dom_insert_L. by apply elem_of_union_r.
Qed.

(** It stops at the first key that the dict does not have. *)
Lemma build_config_loop_unknown (l : loc) (pre post : list (string * value))
    (key : string) (v : value) (d : dict) (m : machine) :
  heap m !! l = Some d →
  Forall (λ kv, kv.1 ∈ dom d) pre →
  key ∉ dom d →
  ∃ m', build_config_loop l (pre ++ (key, v) :: post) m
        = (Raise (ValueError ("Unknown parameter " +:+ key)), m')
        ∧ this m' = this m ∧ fs m' = fs m.
Proof.
  revert d m. induction pre as [|[k w] pre IH]; intros d m Hl Hkeys Hkey.
  - exists m. cbn [app build_config_loop].
    rewrite (run_bind_ok _ _ _ _ _ (read_dict_ok _ _ _ Hl)).
    apply not_elem_of_dom in Hkey. by rewrite Hkey.
  - apply Forall_cons in Hkeys as [Hk Hpre].
    apply elem_of_dom in Hk as [old Hold]. cbn [app build_config_loop].
    rewrite (run_bind_ok _ _ _ _ _ (read_dict_ok _ _ _ Hl)). cbn in Hold.
    rewrite Hold.
    rewrite (run_bind_ok _ _ _ _ _ (setitem_ok l k w d m Hl)).
    destruct (IH (<[k := w]> d) (set_heap (<[l := <[k := w]> d]> (heap m)) m))
      as (m' & Hrun & Hthis & Hfs).
    + apply lookup_insert_eq.
    + eapply Forall_impl; [exact Hpre|]. intros kv Hkv. cbn in *.
      rewrite dom_insert_L. by apply elem_of_union_r.
    + rewrite dom_insert_L. apply not_elem_of_union. split; [|done].
      apply not_elem_of_singleton. intros ->. apply Hkey, elem_of_dom. eauto.
    + exists m'. by rewrite Hrun.
Qed.

(** With distinct keys, assigning the overrides one by one is the union of
    the overrides with the defaults, the overrides winning. *)
Lemma foldl_insert_union (kwargs : list (string * value)) (d : dict) :
  NoDup kwargs.*1 →
  foldl (λ acc kv, <[kv.1 := kv.2]> acc) d kwargs = list_to_map kwargs ∪ d.
Proof.
  revert d. induction kwargs as [|[key v] rest IH]; intros d Hnd.
  - cbn. by rewrite (left_id_L ∅ (∪)).
  - rewrite fmap_cons in Hnd. apply NoDup_cons in Hnd as [Hkey Hnd]. cbn.
    rewrite IH by done. rewrite <- insert_union_l. symmetry.
    apply insert_union_r. by apply not_elem_of_list_to_map_1.
Qed.

Lemma dom_default_config (cuda : bool) :
  dom (default_config cuda)
  = {[ "feature_distribution"; "nonlinearity"; "D"; "N"; "P"; "p"; "noise";
       "device" ]}.
Proof. by destruct cuda. Qed.

Lemma build_config_ok (kwargs : list (string * value)) (m : machine) :
  Forall (λ kv, kv.1 ∈ dom (default_config (cuda_is_available m))) kwargs →
  build_config kwargs m
  = (Ok (fresh (dom (heap m))),
     set_heap (<[fresh (dom (heap m)) :=
                  foldl (λ acc kv, <[kv.1 := kv.2]> acc)
                    (default_config (cuda_is_available m)) kwargs]> (heap m)) m).
Proof.
  intros Hkeys. unfold build_config.
  rewrite (run_bind_ok _ _ _ _ _ (get_default_config_run m)).
  erewrite run_bind_ok; last first.
  { apply build_config_loop_ok; [apply lookup_insert_eq | exact Hkeys]. }
  cbn. unfold set_heap. cbn. by rewrite insert_insert_eq.
Qed.

(** C4: when every override key is a key of the default configuration,
    [build_config] returns a new dict that is the default configuration
    with the overrides merged in; otherwise it raises [ValueError] with the
    message "Unknown parameter <key>" for the first override key that is
    not one of the default keys. *)
Theorem build_config_merges_or_rejects (kwargs : list (string * value))
    (m : machine) :
  (Forall (λ kv, kv.1 ∈ dom (default_config (cuda_is_available m))) kwargs →
   NoDup kwargs.*1 →
   ∃ l, heap m !! l = None
        ∧ build_config kwargs m
          = (Ok l,
             set_heap (<[l := list_to_map kwargs
                              ∪ default_config (cuda_is_available m)]> (heap m)) m))
  ∧ (∀ (pre : list (string * value)) key v post,
       kwargs = (pre ++ (key, v) :: post)%list →
       Forall (λ kv, kv.1 ∈ dom (default_config (cuda_is_available m))) pre →
       key ∉ dom (default_config (cuda_is_available m)) →
       ∃ m', build_config kwargs m
             = (Raise (ValueError ("Unknown parameter " +:+ key)), m')
             ∧ this m' = this m ∧ fs m' = fs m).
Proof.
  split.
  - intros Hkeys Hnd. exists (fresh (dom (heap m))). split.
    + apply not_elem_of_dom, is_fresh.
    + rewrite build_config_ok by done. by rewrite foldl_insert_union.
  - intros pre key v post -> Hpre Hkey. unfold build_config.
    rewrite (run_bind_ok _ _ _ _ _ (get_default_config_run m)).
    destruct (build_config_loop_unknown (fresh (dom (heap m))) pre post key v
                (default_config (cuda_is_available m))
                (set_heap (<[fresh (dom (heap m)) :=
                             default_config (cuda_is_available m)]> (heap m)) m))
      as (m' & Hrun & Hthis & Hfs); [apply lookup_insert_eq|done..|].
    exists m'. by rewrite (run_bind_raise _ _ _ _ _ Hrun).
Qed.

Lemma scenario_config_valid (cuda : bool) :
  valid_config cuda
    (foldl (λ acc kv, <[kv.1 := kv.2]> acc) (default_config cuda) scenario_kwargs)
    4 8 16.
Proof.
  unfold valid_config. split_and!; try done.
  - by left.
  - exists (VFloat (1 / 2)), (1 / 2)%R. split_and!; try done; lra.
  - by exists (VFloat 0), 0%R.
  - destruct cuda; [by right | by left].
Qed.

(** C7: with a valid configuration [generate_dataset] returns a tensor of
    shape [P; N] (with [P * N] entries), whatever the sampling draws; with
    the scenario configuration the tensor has shape [16; 8] and every entry
    is at least [0], whatever the sampling draws. *)
Theorem generate_dataset_shape :
  (∀ (l : loc) (c : dict) (rnd : entropy) (m : machine) (d n np : nat),
     heap m !! l = Some c →
     valid_config (cuda_is_available m) c d n np →
     ∃ t m', generate_dataset (Some l) rnd m = (Ok t, m')
             ∧ shape t = [np; n]
             ∧ length (data t) = np * n)
  ∧ (∀ (rnd : entropy) (m : machine),
       ∃ l m1 t m2,
         build_config scenario_kwargs m = (Ok l, m1)
         ∧ generate_dataset (Some l) rnd m1 = (Ok t, m2)
         ∧ shape t = [16; 8]
         ∧ length (data t) = 128
         ∧ Forall (λ x, 0 <= x)%R (data t)).
Proof.
  split.
  - intros l c rnd m d n np Hl Hvalid.
    destruct (generate_dataset_valid l c rnd m d n np Hl Hvalid)
      as (sigma & sd & xs & Hrun & Hlen & _).
    eexists _, _. split; [exact Hrun|]. split; [done|]. cbn.
    rewrite length_zip_with, !length_fmap, length_seq, Hlen. lia.
  - intros rnd m. eexists _, _.
    assert (Forall (λ kv : string * value,
                      kv.1 ∈ dom (default_config (cuda_is_available m)))
              scenario_kwargs) as Hkeys.
    { rewrite dom_default_config. repeat constructor; cbn; set_solver. }
    destruct (generate_dataset_valid (fresh (dom (heap m)))
                (foldl (λ acc kv, <[kv.1 := kv.2]> acc)
                   (default_config (cuda_is_available m)) scenario_kwargs)
                rnd
                (set_heap (<[fresh (dom (heap m)) :=
                             foldl (λ acc kv, <[kv.1 := kv.2]> acc)
                               (default_config (cuda_is_available m))
                               scenario_kwargs]> (heap m)) m)
                4 8 16)
      as (sigma & sd & xs & Hrun & Hlen & Hrelu & _ & (v & Hv & Hsd)).
    { apply lookup_insert_eq. }
    { apply scenario_config_valid. }
    rewrite (Hrelu eq_refl) in Hrun.
    assert (sd = 0%R) as ->.
    { assert (v = VFloat 0) as -> by (by injection Hv). by injection Hsd. }
    eexists _, _. split; [by apply build_config_ok|].
    split; [exact Hrun|]. split; [done|]. cbn [data]. split.
    + rewrite length_zip_with, !length_fmap, length_seq, Hlen. lia.
    + apply Forall_zip_with_nonneg; [apply relu_nonneg | apply zero_scaled].
Qed.

(** ** The claims about the generator at a concrete machine *)

Lemma generate_dataset_unsupported_witness :
  (generate_dataset (Some 0) still_entropy with_uniform_config).1
  = Raise NotImplementedError
  ∧ (generate_dataset (Some 1) still_entropy with_uniform_config).1
    ≠ Raise NotImplementedError.
Proof.
  destruct (generate_dataset_unsupported 0
              (<["feature_distribution" := VStr "uniform"]> small_config)
              still_entropy with_uniform_config eq_refl) as (Hfd & _).
  destruct (generate_dataset_unsupported 1 small_config
              still_entropy with_uniform_config eq_refl) as (_ & _ & Hok & _).
  split.
  - apply (Hfd (VStr "uniform")); [reflexivity | discriminate].
  - apply Hok; [reflexivity | left; reflexivity].
Defined.

Lemma failed_generation_keeps_config_witness :
  ∃ m', generate_dataset (Some 0) still_entropy with_uniform_config
        = (Raise NotImplementedError, m')
        ∧ get_config with_uniform_config = (Ok (Some 1), with_uniform_config)
        ∧ get_config m' = (Ok (Some 0), m')
        ∧ heap m' = heap with_uniform_config.
Proof.
  pose proof (generate_dataset_bad_distribution 0
                (<["feature_distribution" := VStr "uniform"]> small_config)
                still_entropy with_uniform_config (VStr "uniform")
                eq_refl eq_refl) as Hrun.
  specialize (Hrun ltac:(discriminate)).
  destruct (failed_generation_keeps_config (Some 0) still_entropy
              with_uniform_config _ Hrun) as (l & Hl & Hget & Hheap & _).
  injection Hl as <-.
  eexists. split; [exact Hrun|]. split; [reflexivity|]. split; [exact Hget|].
  exact Hheap.
Defined.

Lemma generate_dataset_shape_witness :
  ∃ t m', generate_dataset (Some 0) still_entropy with_small_config = (Ok t, m')
          ∧ shape t = [2; 3]
          ∧ length (data t) = 6.
Proof.
  destruct generate_dataset_shape as [Hshape _].
  apply (Hshape 0 small_config still_entropy with_small_config 2 3 2 eq_refl).
  apply small_config_valid.
Defined.

Lemma build_config_merges_or_rejects_witness :
  (∃ l, build_config scenario_kwargs booted
        = (Ok l,
           set_heap (<[l := list_to_map scenario_kwargs ∪ default_config false]>
                       (heap booted)) booted))
  ∧ (∃ m', build_config [("noise", VFloat 0); ("foo", VInt 1)] booted
           = (Raise (ValueError "Unknown parameter foo"), m')).
Proof.
  split.
  - destruct (build_config_merges_or_rejects scenario_kwargs booted)
      as [Hmerge _].
    destruct Hmerge as (l & _ & Hrun).
    + rewrite dom_default_config. unfold scenario_kwargs.
      apply (bool_decide_unpack _). vm_compute. exact I.
    + apply (bool_decide_unpack _). vm_compute. exact I.
    + by exists l.
  - destruct (build_config_merges_or_rejects
                [("noise", VFloat 0); ("foo", VInt 1)] booted) as [_ Hreject].
    destruct (Hreject [("noise", VFloat 0)] "foo" (VInt 1) [] eq_refl)
      as (m' & Hrun & _).
    + rewrite dom_default_config.
      apply (bool_decide_unpack _). vm_compute. exact I.
    + rewrite dom_default_config. apply (bool_decide_unpack _). vm_compute. exact I.
    + by exists m'.
Defined.

(** ** The standard loaders *)

Lemma rescale_pixel (v : Z) :
  (0 ≤ v ≤ 255)%Z → (-1 <= 2 * (IZR v / 255) - 1 <= 1)%R.
Proof.
  intros [H0 H255]. apply IZR_le in H0, H255. lra.
Qed.

Section LoaderProperties.
Context (ENTITY : string).

  (** [load_mnist] and [load_cifar] without logging: the affine map on
      every pixel, one row per sample. *)
Lemma load_mnist_ok (im : images) (d0 d1 : nat) (rest : list nat)
      (train : bool) (project : string) (m : machine) :
    ishape im = d0 :: d1 :: rest →
    ∃ l m',
      load_mnist ENTITY im train false project m
      = (Ok (Tensor [d0; numel (d1 :: rest)]
               ((λ v, 2 * (IZR v / 255) - 1)%R <$> pixels im), l), m').
Proof.
    intros Hshape. unfold load_mnist, flatten_from_1, rescale, to_float, tensor_map.
    cbn [shape data]. rewrite Hshape. eexists _, _.
    rewrite (run_lift_ok _ _ _ _ eq_refl). rewrite <- list_fmap_compose.
    reflexivity.
Qed.

Lemma load_cifar_ok (im : images) (d0 d1 : nat) (rest : list nat)
      (train : bool) (project : string) (num_classes : Z) (m : machine) :
    ishape im = d0 :: d1 :: rest →
    ∃ l m',
      load_cifar ENTITY im train false project num_classes m
      = (Ok (Tensor [d0; numel (d1 :: rest)]
               ((λ v, 2 * (IZR v / 255) - 1)%R <$> pixels im), l), m').
Proof.
    intros Hshape. unfold load_cifar, flatten_from_1, rescale, to_float, tensor_map.
    cbn [shape data]. rewrite Hshape. eexists _, _.
    rewrite (run_lift_ok _ _ _ _ eq_refl). rewrite <- list_fmap_compose.
    reflexivity.
Qed.
End LoaderProperties.

(** The pipeline of [load_mnist_as_dataset] divides by 255 twice and keeps
    the channel dimension. *)
Lemma transform_pipeline_ok (pic : images) (h w : nat) :
  ishape pic = [h; w] →
  transform_pipeline pic
  = Ok (Tensor [1; numel [h; w]]
          ((λ v, 2 * (IZR v / 255 / 255) - 1)%R <$> pixels pic)).
Proof.
  intros Hshape. unfold transform_pipeline, ToTensor. rewrite Hshape.
  cbn. unfold rescale, tensor_map. cbn. by rewrite <- list_fmap_compose.
Qed.

(** C3: where the code departs from the claim. On a white picture (every
    pixel 255) the sample of [load_mnist_as_dataset] has shape [1; 784]
    and every entry is [-253/255], not [1]; [load_mnist] maps the same
    pixels to [1] and returns one row of 784 entries per sample. *)
Theorem load_mnist_as_dataset_rescales_twice :
  load_mnist_as_dataset [white_picture] 0
  = Ok (Tensor [1; 784] (replicate 784 (- 253 / 255)%R))
  ∧ (∀ (ENTITY : string) (m : machine),
       ∃ l m', load_mnist ENTITY white_batch true false "jepa" m
               = (Ok (Tensor [1; 784] (replicate 784 1%R), l), m')).
Proof.
  split.
  - unfold load_mnist_as_dataset. cbn [lookup list_lookup].
    rewrite (transform_pipeline_ok white_picture 28 28 eq_refl).
    unfold white_picture. cbn [pixels]. rewrite fmap_replicate.
    do 3 f_equal. lra.
  - intros ENTITY m.
    destruct (load_mnist_ok ENTITY white_batch 1 28 [28] true "jepa" m eq_refl)
      as (l & m' & Hrun).
    exists l, m'. rewrite Hrun. unfold white_batch. cbn [pixels].
    rewrite fmap_replicate. do 5 f_equal. lra.
Qed.

Section LoaderClaims.
Context (ENTITY : string).

(** X1: [load_mnist] without logging, on [uint8] data of at least two
    dimensions: one row per sample, every pixel [v] mapped to
    [2 * (v / 255) - 1], hence into [-1, 1]. *)
Theorem load_mnist_rescales (im : images) (d0 d1 : nat) (rest : list nat)
    (train : bool) (project : string) (m : machine) :
  uint8 im →
  ishape im = d0 :: d1 :: rest →
  ∃ t l m',
    load_mnist ENTITY im train false project m = (Ok (t, l), m')
    ∧ shape t = [d0; numel (d1 :: rest)]
    ∧ data t = (λ v, 2 * (IZR v / 255) - 1)%R <$> pixels im
    ∧ Forall (λ x, -1 <= x <= 1)%R (data t).
Proof.
  intros Him Hshape.
  destruct (load_mnist_ok ENTITY im d0 d1 rest train project m Hshape)
    as (l & m' & Hrun).
  eexists _, l, m'. split; [exact Hrun|]. split_and!; try done.
  cbn. apply Forall_fmap. eapply Forall_impl; [exact Him|].
  intros v Hv. by apply rescale_pixel.
Qed.

(** X2: [load_cifar] without logging, on [uint8] data of at least two
    dimensions: the same map and the same layout as [load_mnist]. *)
Theorem load_cifar_rescales (im : images) (d0 d1 : nat) (rest : list nat)
    (train : bool) (project : string) (num_classes : Z) (m : machine) :
  uint8 im →
  ishape im = d0 :: d1 :: rest →
  ∃ t l m',
    load_cifar ENTITY im train false project num_classes m = (Ok (t, l), m')
    ∧ shape t = [d0; numel (d1 :: rest)]
    ∧ data t = (λ v, 2 * (IZR v / 255) - 1)%R <$> pixels im
    ∧ Forall (λ x, -1 <= x <= 1)%R (data t).
Proof.
  intros Him Hshape.
  destruct (load_cifar_ok ENTITY im d0 d1 rest train project num_classes m Hshape)
    as (l & m' & Hrun).
  eexists _, l, m'. split; [exact Hrun|]. split_and!; try done.
  cbn. apply Forall_fmap. eapply Forall_impl; [exact Him|].
  intros v Hv. by apply rescale_pixel.
Qed.

End LoaderClaims.

Lemma white_batch_uint8 : uint8 white_batch.
Proof. apply Forall_replicate. lia. Qed.

Lemma load_mnist_rescales_witness :
  ∃ t l m',
    load_mnist "lab" white_batch true false "jepa" booted = (Ok (t, l), m')
    ∧ shape t = [1; 784]
    ∧ Forall (λ x, -1 <= x <= 1)%R (data t).
Proof.
  destruct (load_mnist_rescales "lab" white_batch 1 28 [28] true "jepa" booted
              white_batch_uint8 eq_refl) as (t & l & m' & Hrun & Hshape & _ & Hrange).
  by exists t, l, m'.
Defined.

Lemma load_cifar_rescales_witness :
  ∃ t l m',
    load_cifar "lab" white_batch true false "jepa" 10 booted = (Ok (t, l), m')
    ∧ shape t = [1; 784]
    ∧ Forall (λ x, -1 <= x <= 1)%R (data t).
Proof.
  destruct (load_cifar_rescales "lab" white_batch 1 28 [28] true "jepa" 10 booted
              white_batch_uint8 eq_refl) as (t & l & m' & Hrun & Hshape & _ & Hrange).
  by exists t, l, m'.
Defined.

(** * Further properties *)

(** ** Loading *)

Lemma read_file_ok_inv (path : string) (c : content) (m m' : machine) :
  read_file path m = (Ok c, m') →
  (path ∉ dirs (fs m)) ∧ files (fs m) !! path = Some c ∧ m' = m.
Proof.
  unfold read_file. rewrite run_gets.
  destruct (decide (path ∈ dirs (fs m))); [done|].
  destruct (files (fs m) !! path); [|done]. by intros [= -> ->].
Qed.

Lemma read_file_never_writes (path : string) : read_only (read_file path).
Proof.
  intros m. unfold read_file. rewrite run_gets.
  destruct (decide (path ∈ dirs (fs m))); [done|].
  by destruct (files (fs m) !! path).
Qed.

Lemma getitem_ok_inv (l : loc) (k : string) (v : value) (m m' : machine) :
  getitem l k m = (Ok v, m') →
  ∃ d, heap m !! l = Some d ∧ d !! k = Some v ∧ m' = m.
Proof.
  intros (d & m1 & [Hd ->]%read_dict_ok_inv & H)%bind_ok_inv.
  exists d. destruct (d !! k); [|done]. by injection H as -> ->.
Qed.

Section Loading.
Context (PROJECT ENTITY : string).

(** What a call of [load_dataset] that reads [members] from the metadata
    file and finds the tensor [t] at the recorded path returns. *)
Lemma load_dataset_run (id : string) (members : list (string * value))
    (p : string) (t : tensor) (m : machine) :
  metadata_file (this m) id ∉ dirs (fs m) →
  files (fs m) !! metadata_file (this m) id = Some (FJson members) →
  (list_to_map (reverse members) : dict) !! "dataset_path" = Some (VStr p) →
  p ∉ dirs (fs m) →
  files (fs m) !! p = Some (FTensor t) →
  load_dataset id m
  = (Ok (t, fresh (dom (heap m))),
     set_heap (<[fresh (dom (heap m)) := list_to_map (reverse members)]> (heap m)) m).
Proof.
  intros Hmf Hmeta Hpath Hp Hdata. unfold load_dataset. rewrite run_gets.
  fold (dataset_dir (this m) id). fold (metadata_file (this m) id).
  unfold json_load.
  rewrite (run_bind_ok _ _ _ _ _
             (run_bind_ok _ _ _ _ _ (read_file_ok _ _ _ Hmf Hmeta))).
  erewrite run_bind_ok; last first.
  { by eapply getitem_ok; [apply lookup_insert_eq|]. }
  erewrite run_bind_ok; [done|].
  apply torch_load_ok; [exact Hp | exact Hdata].
Qed.

(** X3: [load_dataset] succeeds exactly when the metadata file of the
    dataset holds a JSON object whose ["dataset_path"] is a string and the
    file at that recorded path holds a tensor; it returns that tensor (not
    the one at [<dir>/dataset.pt], unless that is the recorded path) and a
    new dict with the members of the object. *)
Theorem load_dataset_reads_recorded_path (id : string) (t : tensor) (l : loc)
    (m m' : machine) :
  load_dataset id m = (Ok (t, l), m')
  ↔ ∃ (members : list (string * value)) (p : string),
      (metadata_file (this m) id ∉ dirs (fs m))
      ∧ files (fs m) !! metadata_file (this m) id = Some (FJson members)
      ∧ (list_to_map (reverse members) : dict) !! "dataset_path" = Some (VStr p)
      ∧ (p ∉ dirs (fs m))
      ∧ files (fs m) !! p = Some (FTensor t)
      ∧ l = fresh (dom (heap m))
      ∧ m' = set_heap (<[l := list_to_map (reverse members)]> (heap m)) m.
Proof.
  split.
  - unfold load_dataset. rewrite run_gets.
    fold (dataset_dir (this m) id). fold (metadata_file (this m) id).
    intros (l0 & m1 & Hjson & H)%bind_ok_inv.
    apply bind_ok_inv in Hjson
      as (c & m0 & (Hmf & Hmeta & ->)%read_file_ok_inv & Hnew).
    destruct c as [|members]; [done|]. injection Hnew as <- <-.
    apply bind_ok_inv in H as (v & m2 & (d & Hd & Hpath & ->)%getitem_ok_inv & H).
    cbn in Hd. rewrite lookup_insert_eq in Hd. injection Hd as <-.
    apply bind_ok_inv in H as (t' & m3 & Hload & H). injection H as -> <- <-.
    destruct v as [p| |]; try done.
    apply bind_ok_inv in Hload
      as (c & m4 & (Hp & Hdata & ->)%read_file_ok_inv & Hc).
    destruct c as [t''|]; [|done]. injection Hc as -> <-.
    by exists members, p.
  - intros (members & p & Hmf & Hmeta & Hpath & Hp & Hdata & -> & ->).
    by apply (load_dataset_run id members p).
Qed.

(** X4: without a metadata file for the dataset, [load_dataset] raises
    [FileNotFoundError] for the metadata path and changes nothing. *)
Theorem load_dataset_missing_metadata (id : string) (m : machine) :
  metadata_file (this m) id ∉ dirs (fs m) →
  files (fs m) !! metadata_file (this m) id = None →
  load_dataset id m = (Raise (FileNotFoundError (metadata_file (this m) id)), m).
Proof.
  intros Hmf Hnone. unfold load_dataset. rewrite run_gets.
  fold (dataset_dir (this m) id). fold (metadata_file (this m) id).
  erewrite run_bind_raise; [done|]. unfold json_load.
  erewrite run_bind_raise; [done|]. unfold read_file. rewrite run_gets.
  rewrite decide_False by done. by rewrite Hnone.
Qed.

(** X5: whatever its outcome, [load_dataset] writes nothing: files,
    directories, the instance and the tracker are as before, and every
    dict that was there is unchanged. *)
Theorem load_dataset_never_writes (id : string) (m m' : machine)
    (r : result (tensor * loc)) :
  load_dataset id m = (r, m') →
  fs m' = fs m
  ∧ this m' = this m
  ∧ wandb_runs m' = wandb_runs m
  ∧ ∀ l d, heap m !! l = Some d → heap m' !! l = Some d.
Proof.
  unfold load_dataset. rewrite run_gets.
  fold (dataset_dir (this m) id). fold (metadata_file (this m) id).
  rewrite run_bind.
  destruct (json_load (metadata_file (this m) id) m) as [[l0|e] m1] eqn:Hjson.
  - assert (m1 = set_heap (<[l0 := default ∅ (heap m1 !! l0)]> (heap m)) m
            ∧ heap m !! l0 = None) as [Hm1 Hfresh].
    { unfold json_load in Hjson. rewrite run_bind in Hjson.
      rewrite (read_only_run _ m (read_file_never_writes _)) in Hjson.
      destruct (read_file _ m).1 as [[|members]|]; try done.
      injection Hjson as <- <-. cbn. rewrite lookup_insert_eq. cbn.
      split; [done|]. apply not_elem_of_dom, is_fresh. }
    intros H.
    match type of H with
    | ?c _ = _ => assert (read_only c) as Hro
    end.
    { apply read_only_bind; [apply read_only_getitem|]. intros v.
      apply read_only_bind; [|done]. destruct v; try done.
      apply read_only_bind; [apply read_file_never_writes|]. by intros []. }
    rewrite (read_only_run _ _ Hro) in H. injection H as _ <-.
    rewrite Hm1. cbn. split_and!; try done.
    intros l d Hl. rewrite lookup_insert_ne; [done|]. congruence.
  - intros [= <- <-]. unfold json_load in Hjson. rewrite run_bind in Hjson.
    rewrite (read_only_run _ m (read_file_never_writes _)) in Hjson.
    destruct (read_file _ m).1 as [[|members]|]; try done;
      by injection Hjson as _ <-.
Qed.

(** X6: what one instance saved, any instance with the same [save_dir]
    loads from the same file system: the tensor that was saved and the
    metadata record that was written. *)
Theorem load_from_another_instance (d : tensor) (id : string)
    (exist_ok log_to_wandb : bool) (m1 m2 m : machine) :
  save_dataset PROJECT ENTITY d id exist_ok log_to_wandb m1 = (Ok tt, m2) →
  save_dir (this m) = save_dir (this m1) →
  fs m = fs m2 →
  ∃ (l : loc) (cfg : dict) (l' : loc) (m' : machine),
    config (this m1) = Some l
    ∧ heap m1 !! l = Some cfg
    ∧ load_dataset id m = (Ok (d, l'), m')
    ∧ heap m' !! l' = Some (metadata_record cfg (this m1) id)
    ∧ heap m !! l' = None.
Proof.
  intros Hsave Hdir Hfs.
  apply save_dataset_ok_inv in Hsave
    as (l & cfg & runs & Hl & Hcfg & _ & _ & _ & Hdf & Hmf & ->).
  assert (dataset_dir (this m) id = dataset_dir (this m1) id) as Hd
    by (unfold dataset_dir; by rewrite Hdir).
  assert (dataset_file (this m) id = dataset_file (this m1) id) as Hf
    by (unfold dataset_file; by rewrite Hd).
  assert (metadata_file (this m) id = metadata_file (this m1) id) as Hm
    by (unfold metadata_file; by rewrite Hd).
  cbn in Hfs.
  eexists l, cfg, (fresh (dom (heap m))), _. split_and!; [done..| | |].
  - apply (load_dataset_ok id d (metadata_record cfg (this m1) id));
      rewrite ?Hf, ?Hm, ?Hfs; cbn.
    + apply not_elem_of_union. split; [|done].
      apply not_elem_of_singleton, metadata_file_ne_dataset_dir.
    + apply lookup_insert_eq.
    + unfold metadata_record. by rewrite lookup_insert_ne, lookup_insert_eq.
    + apply not_elem_of_union. split; [|done].
      apply not_elem_of_singleton, dataset_file_ne_dataset_dir.
    + rewrite lookup_insert_ne by (symmetry; apply dataset_file_ne_metadata_file).
      apply lookup_insert_eq.
  - cbn. apply lookup_insert_eq.
  - apply not_elem_of_dom, is_fresh.
Qed.

End Loading.

(** ** What a save leaves alone *)

Lemma keeps_bind {A B} (R : machine → machine → Prop) (c : M A) (k : A → M B) :
  (∀ m1 m2 m3, R m1 m2 → R m2 m3 → R m1 m3) →
  keeps R c → (∀ a, keeps R (k a)) → keeps R (c ≫= k).
Proof.
  intros Htrans Hc Hk m. rewrite run_bind. specialize (Hc m).
  destruct (c m) as [[a|e] m1]; [|done].
  eapply Htrans; [exact Hc | apply Hk].
Qed.

Lemma unit_step_refl dir f1 f2 l m : unit_step dir f1 f2 l m m.
Proof. unfold unit_step. split_and!; try done. apply union_subseteq_r. Qed.

Lemma unit_step_trans dir f1 f2 l m1 m2 m3 :
  unit_step dir f1 f2 l m1 m2 → unit_step dir f1 f2 l m2 m3 →
  unit_step dir f1 f2 l m1 m3.
Proof.
  intros (Ht1 & Hd1 & Hd1' & Hf1 & Hh1) (Ht2 & Hd2 & Hd2' & Hf2 & Hh2).
  unfold unit_step. split_and!.
  - congruence.
  - by etrans.
  - etrans; [exact Hd2'|]. apply union_least; [apply union_subseteq_l | done].
  - intros p ??. rewrite Hf2, Hf1; done.
  - intros l' ?. rewrite Hh2, Hh1; done.
Qed.

Lemma keeps_read_only {A} dir f1 f2 l (c : M A) :
  read_only c → keeps (unit_step dir f1 f2 l) c.
Proof. intros Hc m. rewrite Hc. apply unit_step_refl. Qed.

Lemma keeps_makedirs dir f1 f2 l exist_ok :
  keeps (unit_step dir f1 f2 l) (makedirs dir exist_ok).
Proof.
  intros m. unfold makedirs. rewrite run_gets.
  destruct (decide (dir ∈ dom (files (fs m)))); [apply unit_step_refl|].
  destruct (decide (dir ∈ dirs (fs m)));
    [destruct exist_ok; apply unit_step_refl|].
  unfold unit_step. cbn. split_and!; try done. apply union_subseteq_r.
Qed.

Lemma keeps_write_file dir f1 f2 l path c :
  path = f1 ∨ path = f2 → keeps (unit_step dir f1 f2 l) (write_file path c).
Proof.
  intros Hpath m. unfold write_file. rewrite run_gets.
  case_decide; [apply unit_step_refl|].
  unfold unit_step. cbn. split_and!; try done; [apply union_subseteq_r|].
  intros p Hp1 Hp2. apply lookup_insert_ne. by destruct Hpath as [-> | ->].
Qed.

Lemma keeps_setitem dir f1 f2 l k v :
  keeps (unit_step dir f1 f2 (Some l)) (setitem l k v).
Proof.
  intros m. unfold setitem. rewrite run_bind. unfold read_dict.
  destruct (heap m !! l); [|apply unit_step_refl].
  unfold unit_step. cbn. split_and!; try done; [apply union_subseteq_r|].
  intros l' Hl'. apply lookup_insert_ne. congruence.
Qed.

Lemma keeps_delitem dir f1 f2 l k :
  keeps (unit_step dir f1 f2 (Some l)) (delitem l k).
Proof.
  intros m. unfold delitem. rewrite run_bind. unfold read_dict.
  destruct (heap m !! l) as [d|]; [|apply unit_step_refl].
  destruct (d !! k); [|apply unit_step_refl].
  unfold unit_step. cbn. split_and!; try done; [apply union_subseteq_r|].
  intros l' Hl'. apply lookup_insert_ne. congruence.
Qed.

Lemma keeps_json_dump dir f1 f2 l l0 :
  keeps (unit_step dir f1 f2 l) (json_dump l0 f2).
Proof.
  apply keeps_bind; [apply unit_step_trans| |].
  - apply keeps_read_only, read_only_read_dict.
  - intros d. apply keeps_write_file. by right.
Qed.

Lemma keeps_log_dataset dir f1 f2 l t l0 project entity :
  keeps (unit_step dir f1 f2 l) (log_dataset t l0 project entity).
Proof.
  intros m. unfold log_dataset. rewrite run_bind. unfold read_dict.
  destruct (heap m !! l0); [|apply unit_step_refl].
  rewrite run_gets. destruct (wandb_online m); [|apply unit_step_refl].
  unfold unit_step. cbn. split_and!; try done. apply union_subseteq_r.
Qed.

Section SaveFrame.
Context (PROJECT ENTITY : string).

Lemma save_dataset_unit_step (d : tensor) (id : string)
    (exist_ok log_to_wandb : bool) (m m' : machine) (r : result unit) :
  save_dataset PROJECT ENTITY d id exist_ok log_to_wandb m = (r, m') →
  unit_step (dataset_dir (this m) id) (dataset_file (this m) id)
    (metadata_file (this m) id) (config (this m)) m m'.
Proof.
  intros Hrun.
  set (R := unit_step (dataset_dir (this m) id) (dataset_file (this m) id)
              (metadata_file (this m) id) (config (this m))).
  assert (∀ m1 m2 m3, R m1 m2 → R m2 m3 → R m1 m3) as Htrans
    by (intros ???; apply unit_step_trans).
  unfold save_dataset in Hrun. rewrite run_gets in Hrun.
  fold (dataset_dir (this m) id) in Hrun.
  fold (dataset_file (this m) id) in Hrun.
  fold (metadata_file (this m) id) in Hrun.
  rewrite run_bind in Hrun.
  pose proof (keeps_makedirs (dataset_dir (this m) id) (dataset_file (this m) id)
                (metadata_file (this m) id) (config (this m)) exist_ok m) as H1.
  destruct (makedirs (dataset_dir (this m) id) exist_ok m) as [[[]|e] m1];
    [|by injection Hrun as _ <-].
  rewrite run_bind in Hrun.
  pose proof (keeps_write_file (dataset_dir (this m) id) (dataset_file (this m) id)
                (metadata_file (this m) id) (config (this m))
                (dataset_file (this m) id) (FTensor d) (or_introl eq_refl) m1) as H2.
  unfold torch_save in Hrun.
  destruct (write_file (dataset_file (this m) id) (FTensor d) m1) as [[[]|e] m2];
    [|injection Hrun as _ <-; by eapply Htrans].
  assert (R m m2) as H12 by (by eapply Htrans).
  assert (config (this m2) = config (this m)) as Hcfg.
  { destruct H12 as [-> _]. done. }
  unfold get_config in Hrun. rewrite run_gets, Hcfg in Hrun.
  destruct (config (this m)) as [l|] eqn:Hl;
    [|injection Hrun as _ <-; exact H12].
  unfold subscriptable in Hrun. rewrite run_ret in Hrun.
  eapply Htrans; [exact H12|].
  match type of Hrun with
  | ?c m2 = _ => assert (keeps R c) as Hkeeps
  end.
  { apply keeps_bind; [exact Htrans|apply keeps_setitem|intros _].
    apply keeps_bind; [exact Htrans|apply keeps_setitem|intros _].
    apply keeps_bind; [exact Htrans|apply keeps_setitem|intros _].
    apply keeps_bind; [exact Htrans|apply keeps_delitem|intros _].
    apply keeps_bind; [exact Htrans|apply keeps_json_dump|intros _].
    destruct log_to_wandb; [apply keeps_log_dataset|].
    apply keeps_read_only, read_only_ret. }
  specialize (Hkeeps m2). by rewrite Hrun in Hkeeps.
Qed.



End SaveFrame.

(** ** What a generation reads and leaves alone *)

(** X8: whatever its outcome, [generate_dataset] writes no file, logs
    nothing and changes no dict that was there; it stores the reference of
    the configuration it was given, or of a new dict holding the default
    configuration when it was given none. *)
Theorem generate_dataset_only_stores_config (c : option loc) (rnd : entropy)
    (r : result tensor) (m m' : machine) :
  generate_dataset c rnd m = (r, m') →
  fs m' = fs m
  ∧ wandb_runs m' = wandb_runs m
  ∧ save_dir (this m') = save_dir (this m)
  ∧ (∀ l d, heap m !! l = Some d → heap m' !! l = Some d)
  ∧ ∃ l, config (this m') = Some l
         ∧ match c with
           | Some l0 => l = l0 ∧ heap m' = heap m
           | None => heap m !! l = None
                     ∧ heap m' !! l = Some (default_config (cuda_is_available m))
           end.
Proof.
  intros H. destruct c as [l0|].
  - apply generate_dataset_state in H as ->. cbn. split_and!; try done.
    by exists l0.
  - apply generate_dataset_default_state in H as ->. cbn.
    assert (heap m !! fresh (dom (heap m)) = None) as Hfresh
      by apply not_elem_of_dom, is_fresh.
    split_and!; try done.
    + intros l d Hl. rewrite lookup_insert_ne; [done|]. congruence.
    + eexists. split_and!; [done..|]. apply lookup_insert_eq.
Qed.

(** The keys are read in [read_order]; the first one that is missing
    stops the call, provided the two dispatches before it went through. *)
Lemma generate_dataset_key_error (l : loc) (c : dict) (rnd : entropy)
    (m : machine) (pre post : list string) (k : string) :
  heap m !! l = Some c →
  read_order = (pre ++ k :: post)%list →
  (∀ k', k' ∈ pre → is_Some (c !! k')) →
  c !! k = None →
  ("feature_distribution" ∈ pre →
   c !! "feature_distribution" = Some (VStr "gaussian")) →
  ("nonlinearity" ∈ pre →
   c !! "nonlinearity" = Some (VStr "relu")
   ∨ c !! "nonlinearity" = Some (VStr "tanh")) →
  generate_dataset (Some l) rnd m
  = (Raise (KeyError k), set_this (Instance (save_dir (this m)) (Some l)) m).
Proof.
  intros Hl Horder Hpre Hk Hfd Hnl.
  unfold generate_dataset. rewrite run_ret, run_modify.
  set (m1 := set_this _ m).
  assert (∀ key, c !! key = None →
                 ∀ B (cont : value → M B),
                   (getitem l key ≫= cont) m1 = (Raise (KeyError key), m1))
    as Hstop.
  { intros key Hkey B cont.
    by rewrite (run_bind_raise _ _ _ _ _ (getitem_missing l key c m1 Hl Hkey)). }
  unfold read_order in Horder.
  destruct pre as [|k0 pre]; simplify_eq/=; [by apply Hstop|].
  rewrite (run_bind_ok _ _ _ _ _
             (getitem_ok l _ c _ m1 Hl (Hfd (list_elem_of_here _ _)))).
  rewrite decide_True, run_ret by done.
  destruct pre as [|k1 pre]; simplify_eq/=; [by apply Hstop|].
  assert (∃ sigma : R → R, ∀ B (cont : (R → R) → M B) (mm : machine),
            (v ← getitem l "nonlinearity";
             sigma ← match v with
                     | VStr s =>
                         if decide (s = "relu") then ret relu
                         else if decide (s = "tanh") then ret tanh
                              else raise NotImplementedError
                     | _ => raise NotImplementedError
                     end;
             cont sigma) m1 = cont sigma m1) as [sigma Hsigma].
  { destruct Hnl as [Hnl|Hnl];
      [by apply list_elem_of_further, list_elem_of_here| |].
    - exists relu. intros B cont mm.
      rewrite (run_bind_ok _ _ _ _ _ (getitem_ok l _ c _ m1 Hl Hnl)).
      by rewrite decide_True.
    - exists tanh. intros B cont mm.
      rewrite (run_bind_ok _ _ _ _ _ (getitem_ok l _ c _ m1 Hl Hnl)).
      by rewrite decide_False, decide_True. }
  rewrite (Hsigma _ _ m1).
  assert (∀ key, key ∈ "feature_distribution" :: "nonlinearity" :: pre →
                 ∀ B (cont : value → M B),
                   ∃ v, (getitem l key ≫= cont) m1 = cont v m1) as Hgo.
  { intros key Hkey B cont. destruct (Hpre key Hkey) as [v Hv]. exists v.
    by rewrite (run_bind_ok _ _ _ _ _ (getitem_ok l key c v m1 Hl Hv)). }
  repeat
    (destruct pre as [|? pre]; simplify_eq/=;
     [by apply Hstop|];
     match goal with
     | |- (getitem l ?key ≫= ?cont) m1 = _ =>
         let v := fresh "v" in
         let Hv := fresh "Hv" in
         destruct (Hgo key ltac:(repeat first
                                   [ apply list_elem_of_here
                                   | apply list_elem_of_further ]) _ cont)
           as [v Hv];
         rewrite Hv; clear Hv
     end).
  by destruct pre.
Qed.

(** X9: [generate_dataset] reads the keys ["feature_distribution"],
    ["nonlinearity"], ["D"], ["N"], ["P"], ["p"], ["noise"], ["device"] in
    this order; with the keys before it present and supported, the first
    missing key raises [KeyError] for that key, after the configuration has
    been stored. *)
Theorem generate_dataset_missing_key (l : loc) (c : dict) (rnd : entropy)
    (m : machine) (pre post : list string) (k : string) :
  heap m !! l = Some c →
  read_order = (pre ++ k :: post)%list →
  (∀ k', k' ∈ pre → is_Some (c !! k')) →
  c !! k = None →
  ("feature_distribution" ∈ pre →
   c !! "feature_distribution" = Some (VStr "gaussian")) →
  ("nonlinearity" ∈ pre →
   c !! "nonlinearity" = Some (VStr "relu")
   ∨ c !! "nonlinearity" = Some (VStr "tanh")) →
  ∃ m', generate_dataset (Some l) rnd m = (Raise (KeyError k), m')
        ∧ get_config m' = (Ok (Some l), m')
        ∧ heap m' = heap m.
Proof.
  intros Hl Horder Hpre Hk Hfd Hnl. eexists. split.
  - by eapply generate_dataset_key_error.
  - done.
Qed.

(** ** The values of a generated dataset *)

Lemma tanh_range (x : R) : (-1 <= tanh x <= 1)%R.
Proof.
  unfold tanh, sinh, cosh.
  pose proof (exp_pos x) as Ha. pose proof (exp_pos (- x)) as Hb.
  set (a := exp x) in *. set (b := exp (- x)) in *.
  assert (0 < (a + b) / 2)%R as Hpos by lra.
  assert ((a - b) / 2 / ((a + b) / 2) * ((a + b) / 2) = (a - b) / 2)%R as Hq
    by (field; lra).
  split; apply (Rmult_le_reg_r ((a + b) / 2)); [done| |done|];
    rewrite Hq; lra.
Qed.

Lemma tanh_0 : tanh 0 = 0%R.
Proof. unfold tanh. rewrite sinh_0. unfold Rdiv. apply Rmult_0_l. Qed.

Lemma relu_0 : relu 0 = 0%R.
Proof. unfold relu. apply Rmax_left. lra. Qed.

Lemma zip_with_plus_zero (xs zs : list R) :
  length zs = length xs → zip_with Rplus xs (Rmult 0 <$> zs) = xs.
Proof.
  revert zs. induction xs as [|x xs IH]; intros [|z zs] Hlen; try done.
  cbn. rewrite IH by (cbn in Hlen; lia). f_equal. lra.
Qed.

(** A generation with a valid configuration, with the latent patterns and
    the matrix product that it went through. *)
Lemma generate_dataset_run (l : loc) (c : dict) (rnd : entropy)
    (m : machine) (d n np : nat) :
  heap m !! l = Some c →
  valid_config (cuda_is_available m) c d n np →
  ∃ (sigma : R → R) (prob sd : R) (latent prod : tensor),
    (c !! "nonlinearity" = Some (VStr "relu") ∧ sigma = relu
     ∨ c !! "nonlinearity" = Some (VStr "tanh") ∧ sigma = tanh)
    ∧ (∃ v, c !! "p" = Some v ∧ as_number v = Ok prob)
    ∧ (∃ v, c !! "noise" = Some v ∧ as_number v = Ok sd)
    ∧ bernoulli (scale prob (ones [np; d])) (latent_draw rnd) = Ok latent
    ∧ matmul latent (randn [d; n] (feature_draw rnd)) = Ok prod
    ∧ shape prod = [np; n]
    ∧ length (data prod) = np * n
    ∧ generate_dataset (Some l) rnd m
      = (Ok (tensor_add
               (tensor_map sigma
                  (tensor_map (λ x, x / sqrt (IZR (Z.of_nat d)))%R prod))
               (scale sd (randn [np; n] (noise_draw rnd)))),
         set_this (Instance (save_dir (this m)) (Some l)) m).
Proof.
  intros Hl (Hfd & Hnl & HD & HN & HP & (vp & prob & Hp & Hprob & Hrange)
             & (vn & sd & Hnoise & Hsd) & Hdev).
  destruct (bernoulli_constant prob [np; d] (latent_draw rnd) Hrange)
    as (latent & Hlatent & Hlshape).
  destruct (matmul_shape latent (randn [d; n] (feature_draw rnd)) np d n
              Hlshape eq_refl) as (prod & Hprod & Hpshape & Hplen).
  set (m1 := set_this (Instance (save_dir (this m)) (Some l)) m).
  assert (∃ (sigma : R → R) (nl : string),
            c !! "nonlinearity" = Some (VStr nl)
            ∧ (c !! "nonlinearity" = Some (VStr "relu") ∧ sigma = relu
               ∨ c !! "nonlinearity" = Some (VStr "tanh") ∧ sigma = tanh)
            ∧ (if decide (nl = "relu") then ret relu
               else if decide (nl = "tanh") then ret tanh
                    else raise NotImplementedError) = ret sigma)
    as (sigma & nl & Hnl' & Hsigma & Hdispatch).
  { destruct Hnl as [Hnl|Hnl].
    - exists relu, "relu". split_and!; [done|by left|]. by rewrite decide_True.
    - exists tanh, "tanh". split_and!; [done|by right|].
      by rewrite decide_False, decide_True. }
  destruct (to_device_ok
              (tensor_add
                 (tensor_map sigma
                    (tensor_map (λ x, x / sqrt (IZR (Z.of_nat d)))%R prod))
                 (scale sd (randn [np; n] (noise_draw rnd)))) c m1 Hdev)
    as (vd & Hvd & Hto).
  exists sigma, prob, sd, latent, prod.
  split_and!; [done|by exists vp|by exists vn|done..|].
  unfold generate_dataset. rewrite run_ret, run_modify. fold m1.
  rewrite (run_bind_ok _ _ _ _ _ (getitem_ok l _ c _ m1 Hl Hfd)).
  rewrite decide_True, run_ret by done.
  rewrite (run_bind_ok _ _ _ _ _ (getitem_ok l _ c _ m1 Hl Hnl')).
  rewrite Hdispatch, run_ret.
  rewrite (run_bind_ok _ _ _ _ _ (getitem_ok l _ c _ m1 Hl HD)).
  rewrite (run_bind_ok _ _ _ _ _ (getitem_ok l _ c _ m1 Hl HN)).
  rewrite (run_bind_ok _ _ _ _ _ (getitem_ok l _ c _ m1 Hl HP)).
  rewrite (run_bind_ok _ _ _ _ _ (getitem_ok l _ c _ m1 Hl Hp)).
  rewrite (run_bind_ok _ _ _ _ _ (getitem_ok l _ c _ m1 Hl Hnoise)).
  rewrite (run_bind_ok _ _ _ _ _ (getitem_ok l _ c _ m1 Hl Hvd)).
  rewrite (run_lift_ok _ _ _ _ (as_size_of_nat d)).
  rewrite (run_lift_ok _ _ _ _ (as_size_of_nat n)).
  cbv zeta.
  rewrite (run_lift_ok _ _ _ _ (as_size_of_nat np)).
  rewrite (run_lift_ok _ _ _ _ Hprob).
  rewrite (run_lift_ok _ _ _ _ Hlatent).
  rewrite (run_lift_ok _ _ _ _ Hprod).
  rewrite (run_lift_ok _ (IZR (Z.of_nat d)) _ _ eq_refl).
  rewrite (run_lift_ok _ _ _ _ Hsd).
  exact Hto.
Qed.

(** Without noise the entries are the values of the nonlinearity. *)
Lemma noise_free_data (sigma : R → R) (prod : tensor) (root : R) (np n : nat)
    (draw : nat → R) :
  length (data prod) = np * n →
  data (tensor_add
          (tensor_map sigma (tensor_map (λ x, x / root)%R prod))
          (scale 0 (randn [np; n] draw)))
  = sigma <$> ((λ x, x / root)%R <$> data prod).
Proof.
  intros Hlen. unfold tensor_add, scale, tensor_map, randn. cbn [data shape].
  apply zip_with_plus_zero.
  rewrite !length_fmap, length_seq, Hlen. unfold numel. cbn. lia.
Qed.

(** X10: with a valid configuration whose latent dimension is positive and
    whose noise is [0], the generated tensor has shape [P; N]; its entries
    are at least [0] when the nonlinearity is ["relu"] and lie within
    [-1, 1] when it is ["tanh"], whatever the sampling draws. *)
Theorem generate_dataset_noise_free (l : loc) (c : dict) (rnd : entropy)
    (m : machine) (d n np : nat) (v : value) :
  heap m !! l = Some c →
  valid_config (cuda_is_available m) c d n np →
  0 < d →
  c !! "noise" = Some v →
  as_number v = Ok 0%R →
  ∃ t m',
    generate_dataset (Some l) rnd m = (Ok t, m')
    ∧ shape t = [np; n]
    ∧ length (data t) = np * n
    ∧ (c !! "nonlinearity" = Some (VStr "relu") →
       Forall (λ x, 0 <= x)%R (data t))
    ∧ (c !! "nonlinearity" = Some (VStr "tanh") →
       Forall (λ x, -1 <= x <= 1)%R (data t)).
Proof.
  intros Hl Hvalid _ Hv Hzero.
  destruct (generate_dataset_run l c rnd m d n np Hl Hvalid)
    as (sigma & prob & sd & latent & prod & Hsigma & _ & (v' & Hv' & Hsd)
        & _ & _ & Hshape & Hlen & Hrun).
  assert (sd = 0%R) as -> by congruence.
  eexists _, _. split; [exact Hrun|].
  rewrite (noise_free_data sigma prod _ np n _ Hlen).
  split_and!.
  - by cbn.
  - by rewrite !length_fmap.
  - intros Hrelu. destruct Hsigma as [[_ ->]|[Htanh _]]; [|congruence].
    apply relu_nonneg.
  - intros Htanh. destruct Hsigma as [[Hrelu _]|[_ ->]]; [congruence|].
    apply Forall_fmap, Forall_true. intros x. apply tanh_range.
Qed.

Lemma default_config_valid (cuda : bool) :
  valid_config cuda (default_config cuda)
    (Z.to_nat 64) (Z.to_nat 1024) (Z.to_nat 8192).
Proof.
  unfold valid_config. rewrite !Z2Nat.id by lia. split_and!; try done.
  - by right.
  - exists (VFloat (1 / 2)), (1 / 2)%R. split_and!; try done; lra.
  - by exists (VFloat 0), 0%R.
  - destruct cuda; [by right | by left].
Qed.

(** X11: called without a configuration, [generate_dataset] always
    succeeds: it stores a new dict holding the default configuration (whose
    device is the one that is available) and returns a tensor of 8192 rows
    and 1024 columns whose entries lie within [-1, 1]. *)
Theorem generate_dataset_default (rnd : entropy) (m : machine) :
  ∃ t l m',
    generate_dataset None rnd m = (Ok t, m')
    ∧ shape t = [Z.to_nat 8192; Z.to_nat 1024]
    ∧ Forall (λ x, -1 <= x <= 1)%R (data t)
    ∧ get_config m' = (Ok (Some l), m')
    ∧ heap m !! l = None
    ∧ heap m' !! l = Some (default_config (cuda_is_available m)).
Proof.
  set (l := fresh (dom (heap m))).
  set (m0 := set_heap (<[l := default_config (cuda_is_available m)]> (heap m)) m).
  destruct (generate_dataset_run l (default_config (cuda_is_available m)) rnd m0
              (Z.to_nat 64) (Z.to_nat 1024) (Z.to_nat 8192))
    as (sigma & prob & sd & latent & prod & Hsigma & _ & (v' & Hv' & Hsd)
        & _ & _ & Hshape & Hlen & Hrun).
  { apply lookup_insert_eq. }
  { apply default_config_valid. }
  assert (sigma = tanh) as ->.
  { destruct Hsigma as [[Hrelu _]|[_ ->]]; [|done]. by destruct (cuda_is_available m). }
  assert (sd = 0%R) as ->.
  { assert (v' = VFloat 0) as ->; [|by injection Hsd].
    destruct (cuda_is_available m); by injection Hv'. }
  eexists _, l, _. split.
  { unfold generate_dataset.
    rewrite (run_bind_ok _ _ _ _ _ (get_default_config_run m)). exact Hrun. }
  rewrite (noise_free_data tanh prod _ _ _ _ Hlen).
  split_and!.
  - exact Hshape.
  - apply Forall_fmap, Forall_true. intros x. apply tanh_range.
  - reflexivity.
  - apply not_elem_of_dom, is_fresh.
  - apply lookup_insert_eq.
Qed.

(** *** The two degenerate activation probabilities *)

Lemma imap_replicate_const {A B} (g : nat → A → B) (x : A) (c : B) (k : nat) :
  (∀ i, g i x = c) → imap g (replicate k x) = replicate k c.
Proof.
  revert g. induction k as [|k IH]; intros g Hg; [done|].
  cbn. rewrite Hg. f_equal. apply IH. intros i. apply Hg.
Qed.

Lemma bernoulli_zero (size : list nat) (draw : nat → R) :
  unit_draws draw →
  bernoulli (scale 0 (ones size)) draw
  = Ok (Tensor size (replicate (numel size) 0%R)).
Proof.
  intros Hdraw. unfold bernoulli, scale, tensor_map, ones. cbn [data shape].
  rewrite fmap_replicate. rewrite Rmult_0_l.
  assert (forallb (λ q, bool_decide (0 <= q)%R && bool_decide (q <= 1)%R)
            (replicate (numel size) 0%R) = true) as ->.
  { rewrite <- (list_fmap_id (replicate _ _)). apply forallb_fmap_replicate.
    cbn. rewrite !bool_decide_eq_true_2; [done|lra..]. }
  do 2 f_equal. apply imap_replicate_const. intros i.
  rewrite decide_False; [done|]. destruct (Hdraw i). lra.
Qed.

Lemma bernoulli_one (size : list nat) (draw : nat → R) :
  unit_draws draw →
  bernoulli (scale 1 (ones size)) draw
  = Ok (Tensor size (replicate (numel size) 1%R)).
Proof.
  intros Hdraw. unfold bernoulli, scale, tensor_map, ones. cbn [data shape].
  rewrite fmap_replicate. rewrite Rmult_1_l.
  assert (forallb (λ q, bool_decide (0 <= q)%R && bool_decide (q <= 1)%R)
            (replicate (numel size) 1%R) = true) as ->.
  { rewrite <- (list_fmap_id (replicate _ _)). apply forallb_fmap_replicate.
    cbn. rewrite !bool_decide_eq_true_2; [done|lra..]. }
  do 2 f_equal. apply imap_replicate_const. intros i.
  rewrite decide_True; [done|]. destruct (Hdraw i). lra.
Qed.

Lemma foldr_plus_zero {A} (f : A → R) (l : list A) :
  (∀ a, f a = 0%R) → foldr Rplus 0%R (f <$> l) = 0%R.
Proof.
  intros Hf. induction l as [|a l IH]; [done|]. cbn. rewrite Hf, IH. lra.
Qed.

Lemma nth_replicate_same {A} (x : A) (k i : nat) : nth i (replicate k x) x = x.
Proof.
  revert i. induction k as [|k IH]; intros [|i]; try done. cbn. apply IH.
Qed.

Lemma zip_with_zero_plus (xs ys : list R) :
  Forall (λ x, x = 0%R) xs → length xs = length ys →
  zip_with Rplus xs ys = ys.
Proof.
  intros Hxs. revert ys. induction Hxs as [|x xs -> _ IH]; intros [|y ys] Hlen;
    try done.
  cbn. rewrite IH by (cbn in Hlen; lia). f_equal. lra.
Qed.

Lemma Forall_flat_map_const {A B} (P : B → Prop) (f : A → list B) (l : list A) :
  (∀ a, Forall P (f a)) → Forall P (flat_map f l).
Proof.
  intros Hf. induction l as [|a l IH]; [done|]. cbn. apply Forall_app. auto.
Qed.

(** X12: with activation probability [0] (and uniform draws in the unit
    interval) every latent pattern is zero, and the dataset is the scaled
    noise alone: entry number [i] is [noise * z i] for the [i]-th normal
    draw [z i]. *)
Theorem generate_dataset_p_zero (l : loc) (c : dict) (rnd : entropy)
    (m : machine) (d n np : nat) (vp : value) :
  heap m !! l = Some c →
  valid_config (cuda_is_available m) c d n np →
  0 < d →
  c !! "p" = Some vp →
  as_number vp = Ok 0%R →
  unit_draws (latent_draw rnd) →
  ∃ (vn : value) (sd : R) (m' : machine),
    c !! "noise" = Some vn
    ∧ as_number vn = Ok sd
    ∧ generate_dataset (Some l) rnd m
      = (Ok (Tensor [np; n] ((λ i, sd * noise_draw rnd i)%R <$> seq 0 (np * n))),
         m').
Proof.
  intros Hl Hvalid _ Hp Hzero Hdraw.
  destruct (generate_dataset_run l c rnd m d n np Hl Hvalid)
    as (sigma & prob & sd & latent & prod & Hsigma & (vp' & Hvp' & Hprob)
        & (vn & Hvn & Hsd) & Hlatent & Hprod & Hshape & Hlen & Hrun).
  assert (prob = 0%R) as -> by congruence.
  rewrite (bernoulli_zero _ _ Hdraw) in Hlatent. injection Hlatent as <-.
  exists vn, sd. eexists. split_and!; [done..|]. rewrite Hrun. do 2 f_equal.
  unfold tensor_add, scale, tensor_map, randn. cbn [shape data].
  rewrite Hshape. f_equal.
  rewrite zip_with_zero_plus.
  - rewrite <- list_fmap_compose. unfold numel. cbn. by rewrite Nat.mul_1_r.
  - unfold matmul, randn in Hprod. cbn [shape] in Hprod.
    rewrite decide_True in Hprod by done. injection Hprod as <-. cbn [data].
    rewrite <- list_fmap_compose. apply Forall_fmap.
    apply Forall_flat_map_const. intros i. apply Forall_fmap, Forall_true.
    intros j. cbn. unfold dot.
    rewrite foldr_plus_zero.
    + unfold Rdiv. rewrite Rmult_0_l.
      destruct Hsigma as [[_ ->]|[_ ->]]; [apply relu_0 | apply tanh_0].
    + intros k. unfold entry. cbn [data]. rewrite nth_replicate_same. lra.
  - rewrite !length_fmap, length_seq, Hlen. unfold numel. cbn. lia.
Qed.

Lemma fmap_seq_ext {B} (f g : nat → B) (start len : nat) :
  (∀ i, start ≤ i < start + len → f i = g i) →
  f <$> seq start len = g <$> seq start len.
Proof. intros H. by apply Forall_fmap_ext, Forall_seq. Qed.

Lemma flat_map_seq_const {B} (f : nat → list B) (row : list B) (start len : nat) :
  (∀ i, start ≤ i < start + len → f i = row) →
  flat_map f (seq start len) = concat (replicate len row).
Proof.
  revert start. induction len as [|len IH]; intros start Hf; [done|].
  cbn. rewrite Hf by lia. f_equal. apply IH. intros i Hi. apply Hf. lia.
Qed.

Lemma fmap_concat_replicate {A B} (f : A → B) (row : list A) (k : nat) :
  f <$> concat (replicate k row) = concat (replicate k (f <$> row)).
Proof.
  induction k as [|k IH]; [done|]. cbn. by rewrite fmap_app, IH.
Qed.

Lemma entry_randn (size : list nat) (draw : nat → R) (i : nat) :
  i < numel size → entry (randn size draw) i = draw i.
Proof.
  intros Hi. unfold entry, randn. cbn [data]. apply nth_lookup_Some.
  by rewrite list_lookup_fmap, lookup_seq_lt.
Qed.

(** X13: with activation probability [1] (uniform draws in the unit
    interval) and noise [0], every row of the dataset is the same: entry
    [j] of each row is the nonlinearity of the sum of column [j] of the
    feature matrix, divided by the square root of [D]. *)
Theorem generate_dataset_p_one (l : loc) (c : dict) (rnd : entropy)
    (m : machine) (d n np : nat) (vp vn : value) :
  heap m !! l = Some c →
  valid_config (cuda_is_available m) c d n np →
  0 < d →
  c !! "p" = Some vp →
  as_number vp = Ok 1%R →
  c !! "noise" = Some vn →
  as_number vn = Ok 0%R →
  unit_draws (latent_draw rnd) →
  ∃ (sigma : R → R) (m' : machine),
    (c !! "nonlinearity" = Some (VStr "relu") ∧ sigma = relu
     ∨ c !! "nonlinearity" = Some (VStr "tanh") ∧ sigma = tanh)
    ∧ generate_dataset (Some l) rnd m
      = (Ok (Tensor [np; n]
               (concat
                  (replicate np
                     ((λ j, sigma
                              (foldr Rplus 0
                                 ((λ k, feature_draw rnd (k * n + j)) <$> seq 0 d)
                               / sqrt (IZR (Z.of_nat d))))%R
                        <$> seq 0 n)))),
         m').
Proof.
  intros Hl Hvalid _ Hp Hone Hn Hzero Hdraw.
  destruct (generate_dataset_run l c rnd m d n np Hl Hvalid)
    as (sigma & prob & sd & latent & prod & Hsigma & (vp' & Hvp' & Hprob)
        & (vn' & Hvn' & Hsd) & Hlatent & Hprod & Hshape & Hlen & Hrun).
  assert (prob = 1%R) as -> by congruence.
  assert (sd = 0%R) as -> by congruence.
  rewrite (bernoulli_one _ _ Hdraw) in Hlatent. injection Hlatent as <-.
  exists sigma. eexists. split; [done|]. rewrite Hrun. do 2 f_equal.
  assert (tensor_add
            (tensor_map sigma (tensor_map (λ x, x / sqrt (IZR (Z.of_nat d)))%R prod))
            (scale 0 (randn [np; n] (noise_draw rnd)))
          = Tensor [np; n]
              (sigma <$> ((λ x, x / sqrt (IZR (Z.of_nat d)))%R <$> data prod)))
    as ->.
  { rewrite <- (noise_free_data sigma prod _ np n (noise_draw rnd) Hlen).
    unfold tensor_add, tensor_map. cbn [shape data]. by rewrite Hshape. }
  f_equal.
  unfold matmul in Hprod.
  change (shape (randn [d; n] (feature_draw rnd))) with [d; n] in Hprod.
  cbn [shape] in Hprod.
  rewrite decide_True in Hprod by done. injection Hprod as <-. cbn [data].
  rewrite (flat_map_seq_const _
             ((λ j, foldr Rplus 0
                      ((λ k, feature_draw rnd (k * n + j)) <$> seq 0 d))%R
                <$> seq 0 n)).
  - rewrite !fmap_concat_replicate. do 2 f_equal.
    by rewrite <- !list_fmap_compose.
  - intros i Hi. apply fmap_seq_ext. intros j Hj. unfold dot. f_equal.
    apply fmap_seq_ext. intros k Hk.
    rewrite entry_randn by (unfold numel; cbn; nia).
    unfold entry. cbn [data].
    rewrite (nth_lookup_Some _ _ _ 1%R); [lra|].
    apply lookup_replicate_2. unfold numel. cbn. nia.
Qed.

(** ** Generating again after a save *)

(** What a successful generation has read. *)
Lemma generate_dataset_ok_inv (l : loc) (rnd : entropy) (t : tensor)
    (m m' : machine) :
  generate_dataset (Some l) rnd m = (Ok t, m') →
  ∃ c, heap m !! l = Some c
       ∧ c !! "feature_distribution" = Some (VStr "gaussian")
       ∧ (c !! "nonlinearity" = Some (VStr "relu")
          ∨ c !! "nonlinearity" = Some (VStr "tanh"))
       ∧ Forall (λ k, is_Some (c !! k)) read_order.
Proof.
  unfold generate_dataset. rewrite run_ret, run_modify.
  set (m1 := set_this _ m).
  intros (fd & ma & (c & Hl & Hfd & ->)%getitem_ok_inv & H)%bind_ok_inv.
  apply bind_ok_inv in H as (gen & mb & Hgen & H).
  destruct fd as [s| |]; try done.
  destruct (decide (s = "gaussian")) as [->|]; [|done]. injection Hgen as _ <-.
  apply bind_ok_inv in H as (nl & mc & (c' & Hl' & Hnl & ->)%getitem_ok_inv & H).
  assert (c' = c) as -> by congruence.
  apply bind_ok_inv in H as (sigma & md & Hsigma & H).
  assert ((c !! "nonlinearity" = Some (VStr "relu")
           ∨ c !! "nonlinearity" = Some (VStr "tanh")) ∧ md = m1) as [Hnl' ->].
  { destruct nl as [s| |]; try done.
    destruct (decide (s = "relu")) as [->|];
      [injection Hsigma as _ <-; split; [by left|done]|].
    destruct (decide (s = "tanh")) as [->|]; [|done].
    injection Hsigma as _ <-. split; [by right|done]. }
  apply bind_ok_inv in H as (vD & ? & (cD & HlD & HD & ->)%getitem_ok_inv & H).
  apply bind_ok_inv in H as (vN & ? & (cN & HlN & HN & ->)%getitem_ok_inv & H).
  apply bind_ok_inv in H as (vP & ? & (cP & HlP & HP & ->)%getitem_ok_inv & H).
  apply bind_ok_inv in H as (vp & ? & (cp & Hlp & Hp & ->)%getitem_ok_inv & H).
  apply bind_ok_inv in H as (vn & ? & (cn & Hln & Hn & ->)%getitem_ok_inv & H).
  apply bind_ok_inv in H as (vd & ? & (cd & Hld & Hd & ->)%getitem_ok_inv & H).
  assert (cD = c ∧ cN = c ∧ cP = c ∧ cp = c ∧ cn = c ∧ cd = c)
    as (-> & -> & -> & -> & -> & ->) by (split_and!; congruence).
  exists c. split_and!; try done.
  unfold read_order. repeat constructor; eauto.
Qed.

Section Regenerating.
Context (PROJECT ENTITY : string).

(** X14: once a generated dataset has been saved, generating again with
    the retained configuration (the dict that [get_config] returns) raises
    [KeyError "device"]: the save removed the key that the generation
    reads. *)
Theorem generate_after_save_raises (c : option loc) (rnd rnd' : entropy)
    (t d : tensor) (id : string) (exist_ok log_to_wandb : bool)
    (m0 m1 m2 : machine) :
  generate_dataset c rnd m0 = (Ok t, m1) →
  save_dataset PROJECT ENTITY d id exist_ok log_to_wandb m1 = (Ok tt, m2) →
  ∃ l m3,
    get_config m2 = (Ok (Some l), m2)
    ∧ generate_dataset (Some l) rnd' m2 = (Raise (KeyError "device"), m3).
Proof.
  intros Hgen Hsave.
  assert (∃ l0 m0', generate_dataset (Some l0) rnd m0' = (Ok t, m1))
    as (l0 & m0' & Hgen').
  { destruct c as [l0|]; [by eauto|].
    unfold generate_dataset in Hgen.
    rewrite (run_bind_ok _ _ _ _ _ (get_default_config_run m0)) in Hgen.
    exists (fresh (dom (heap m0))),
      (set_heap (<[fresh (dom (heap m0)) :=
                   default_config (cuda_is_available m0)]> (heap m0)) m0).
    exact Hgen. }
  pose proof (generate_dataset_state _ _ _ _ _ Hgen') as Hm1.
  apply generate_dataset_ok_inv in Hgen' as (cfg & Hl0 & Hfd & Hnl & Hkeys).
  apply save_dataset_ok_inv in Hsave
    as (l & cfg' & runs & Hl & Hcfg & _ & _ & _ & _ & _ & ->).
  assert (l = l0) as -> by (subst m1; cbn in Hl; congruence).
  assert (cfg' = cfg) as -> by (subst m1; cbn in Hcfg; congruence).
  exists l0. eexists. split.
  { unfold get_config, gets. cbn. by rewrite Hl. }
  assert (∀ k, k ≠ "device" → k ≠ "id" → k ≠ "dataset_path" → k ≠ "dataset_dir" →
               metadata_record cfg (this m1) id !! k = cfg !! k) as Hsame.
  { intros k ????. unfold metadata_record.
    by rewrite !lookup_insert_ne, lookup_delete_ne. }
  apply (generate_dataset_key_error l0 (metadata_record cfg (this m1) id) rnd' _
           [ "feature_distribution"; "nonlinearity"; "D"; "N"; "P"; "p"; "noise" ]
           [] "device").
  - cbn. apply lookup_insert_eq.
  - done.
  - intros k Hk. unfold read_order in Hkeys.
    rewrite !Forall_cons in Hkeys.
    destruct Hkeys as (H1 & H2 & H3 & H4 & H5 & H6 & H7 & _).
    repeat (apply elem_of_cons in Hk as [->|Hk]; [by rewrite Hsame|]).
    by apply elem_of_nil in Hk.
  - unfold metadata_record. rewrite !lookup_insert_ne by done.
    apply lookup_delete_eq.
  - intros _. by rewrite Hsame.
  - intros _. by rewrite !Hsame.
Qed.

End Regenerating.

(** ** The units of two datasets *)

Lemma append_assoc (a b c : string) : (a +:+ b) +:+ c = a +:+ (b +:+ c).
Proof.
  induction a as [|x a IH]; [done|].
  change (String x ((a +:+ b) +:+ c) = String x (a +:+ (b +:+ c))).
  by rewrite IH.
Qed.

Lemma has_sep_append_sep (a x : string) : has_sep (a +:+ String "/" x) = true.
Proof.
  induction a as [|c a IH]; [done|].
  change (bool_decide (c = "/"%char) || has_sep (a +:+ String "/" x) = true).
  rewrite IH. apply orb_true_r.
Qed.

(** Two strings without separator that are followed by a separator. *)
Lemma split_at_sep (a b x y : string) :
  has_sep a = false → has_sep b = false →
  a +:+ String "/" x = b +:+ String "/" y → a = b ∧ x = y.
Proof.
  revert b. induction a as [|c a IH]; intros [|c' b] Ha Hb H.
  - by injection H.
  - injection H as <- _. cbn in Hb. by rewrite bool_decide_eq_true_2 in Hb.
  - injection H as -> _. cbn in Ha. by rewrite bool_decide_eq_true_2 in Ha.
  - injection H as -> H. cbn in Ha, Hb.
    apply orb_false_iff in Ha as [_ Ha]. apply orb_false_iff in Hb as [_ Hb].
    destruct (IH b Ha Hb H) as [-> ->]. done.
Qed.

Lemma has_sep_ends_with_sep (s : string) : has_sep s = false → ends_with_sep s = false.
Proof.
  induction s as [|c s IH]; [done|]. cbn. intros [Hc Hs]%orb_false_iff.
  destruct s; [done|]. by apply IH.
Qed.

Lemma ends_with_sep_append (a b : string) :
  b ≠ "" → ends_with_sep (a +:+ b) = ends_with_sep b.
Proof.
  intros Hb. induction a as [|c a IH]; [done|].
  change (ends_with_sep (String c (a +:+ b)) = ends_with_sep b).
  cbn. destruct (a +:+ b) eqn:Hab; [|done].
  destruct a; [|done]. cbn in Hab. done.
Qed.

(** The directory of a dataset is a prefix that only depends on [save_dir],
    followed by the identifier. *)
Lemma dataset_dir_prefix (o : HiddenManifold) :
  ∃ prefix, ∀ id, dataset_dir o id = prefix +:+ id.
Proof.
  exists (save_dir o
          +:+ (if bool_decide (save_dir o = "") || ends_with_sep (save_dir o)
               then "" else "/") +:+ "rf_").
  intros id. unfold dataset_dir, get_dirname.
  rewrite os_path_join_relative by done.
  by rewrite !append_assoc.
Qed.

(** With an identifier without separator, the files of the unit are the
    directory followed by a separator and the file name. *)
Lemma get_dirname_cons (id : string) :
  get_dirname id = String "r" (String "f" (String "_" id)).
Proof. reflexivity. Qed.

Lemma dataset_dir_plain (o : HiddenManifold) (id : string) :
  has_sep id = false →
  bool_decide (dataset_dir o id = "") || ends_with_sep (dataset_dir o id) = false.
Proof.
  intros Hid. apply has_sep_ends_with_sep in Hid.
  unfold dataset_dir. rewrite os_path_join_relative by done.
  rewrite get_dirname_cons.
  set (sep := if bool_decide (save_dir o = "") || ends_with_sep (save_dir o)
              then "" else "/").
  assert (sep +:+ String "r" (String "f" (String "_" id)) ≠ "") as Hne
    by (subst sep; destruct (_ || _); discriminate).
  apply orb_false_iff. split.
  - apply bool_decide_eq_false_2. intros H.
    destruct (save_dir o); [done | discriminate H].
  - rewrite ends_with_sep_append by done.
    subst sep. destruct (_ || _).
    + change (ends_with_sep (String "r" (String "f" (String "_" id))) = false).
      by destruct id.
    + change (ends_with_sep (String "/" (String "r" (String "f" (String "_" id))))
              = false).
      by destruct id.
Qed.

(** With an identifier without separator, the files of the unit are the
    directory followed by a separator and the file name. *)
Lemma unit_files (o : HiddenManifold) (id : string) :
  has_sep id = false →
  dataset_file o id = dataset_dir o id +:+ "/dataset.pt"
  ∧ metadata_file o id = dataset_dir o id +:+ "/metadata.json".
Proof.
  intros Hid. pose proof (dataset_dir_plain o id Hid) as Hsep.
  unfold dataset_file, metadata_file.
  rewrite !os_path_join_relative by done. by rewrite Hsep.
Qed.


(** The units of two distinct identifiers without separator share no
    path. *)
Lemma units_disjoint (o : HiddenManifold) (id1 id2 : string) :
  has_sep id1 = false → has_sep id2 = false → id1 ≠ id2 →
  dataset_file o id1 ≠ dataset_file o id2
  ∧ dataset_file o id1 ≠ metadata_file o id2
  ∧ metadata_file o id1 ≠ dataset_file o id2
  ∧ metadata_file o id1 ≠ metadata_file o id2
  ∧ dataset_file o id1 ≠ dataset_dir o id2
  ∧ metadata_file o id1 ≠ dataset_dir o id2.
Proof.
  intros H1 H2 Hne.
  destruct (unit_files o id1 H1) as [-> ->].
  destruct (unit_files o id2 H2) as [-> ->].
  destruct (dataset_dir_prefix o) as [prefix Hprefix]. rewrite !Hprefix.
  rewrite !append_assoc.
  split_and!; intros H%String.app_inj.
  - by apply split_at_sep in H as [? _].
  - by apply split_at_sep in H as [? _].
  - by apply split_at_sep in H as [? _].
  - by apply split_at_sep in H as [? _].
  - rewrite <- H, has_sep_append_sep in H2. done.
  - rewrite <- H, has_sep_append_sep in H2. done.
Qed.

Lemma unit_paths_same_save_dir (o o' : HiddenManifold) (id : string) :
  save_dir o' = save_dir o →
  dataset_dir o' id = dataset_dir o id
  ∧ dataset_file o' id = dataset_file o id
  ∧ metadata_file o' id = metadata_file o id.
Proof.
  intros H. unfold dataset_file, metadata_file, dataset_dir. by rewrite H.
Qed.

Section TwoDatasets.
Context (PROJECT ENTITY : string).

(** X16: a saved dataset survives what the instance does next for another
    identifier: after a further call of [generate_dataset] and a call of
    [save_dataset] for a different identifier, whatever their outcomes,
    [load_dataset] still returns the tensor and the metadata record of the
    first save. Identifiers are without path separator. *)
Theorem later_save_keeps_dataset (d1 d2 : tensor) (id1 id2 : string)
    (exist_ok1 log1 exist_ok2 log2 : bool) (c : option loc) (rnd : entropy)
    (r0 : result tensor) (r : result unit) (m1 m2 m3 m4 : machine) :
  save_dataset PROJECT ENTITY d1 id1 exist_ok1 log1 m1 = (Ok tt, m2) →
  generate_dataset c rnd m2 = (r0, m3) →
  save_dataset PROJECT ENTITY d2 id2 exist_ok2 log2 m3 = (r, m4) →
  has_sep id1 = false →
  has_sep id2 = false →
  id1 ≠ id2 →
  ∃ (l : loc) (cfg : dict) (l' : loc) (m5 : machine),
    config (this m1) = Some l
    ∧ heap m1 !! l = Some cfg
    ∧ load_dataset id1 m4 = (Ok (d1, l'), m5)
    ∧ heap m5 !! l' = Some (metadata_record cfg (this m1) id1).
Proof.
  intros Hsave1 Hgen Hsave2 Hid1 Hid2 Hne.
  apply save_dataset_ok_inv in Hsave1
    as (l & cfg & runs & Hl & Hcfg & _ & _ & _ & Hdf & Hmf & ->).
  apply generate_dataset_stored in Hgen as (_ & _ & Hdir3 & Hfs3 & _).
  cbn in Hdir3, Hfs3.
  apply save_dataset_unit_step in Hsave2 as (Hthis4 & _ & Hdirs4 & Hfiles4 & _).
  destruct (unit_paths_same_save_dir (this m1) (this m3) id1 Hdir3)
    as (Hd1 & Hf1 & Hm1).
  destruct (unit_paths_same_save_dir (this m1) (this m3) id2 Hdir3)
    as (Hd2 & Hf2 & Hm2).
  rewrite Hd2, Hf2, Hm2, Hfs3 in *. cbn in Hdirs4, Hfiles4.
  destruct (units_disjoint (this m1) id1 id2 Hid1 Hid2 Hne)
    as (Hff & Hfm & Hmf' & Hmm & Hfd & Hmd).
  assert (dataset_file (this m4) id1 = dataset_file (this m1) id1
          ∧ metadata_file (this m4) id1 = metadata_file (this m1) id1)
    as [Hf4 Hm4] by (by rewrite Hthis4).
  assert (∀ p, p ≠ dataset_dir (this m1) id1 → p ≠ dataset_dir (this m1) id2 →
               p ∉ dirs (fs m1) → p ∉ dirs (fs m4)) as Hnodir.
  { intros p Hp1 Hp2 Hp Hin. apply Hdirs4 in Hin.
    apply elem_of_union in Hin as [Hin%elem_of_singleton|Hin]; [done|].
    apply elem_of_union in Hin as [Hin%elem_of_singleton|Hin]; done. }
  eexists l, cfg, _, _. split_and!; [done..| |].
  - apply (load_dataset_ok id1 d1 (metadata_record cfg (this m1) id1));
      rewrite ?Hf4, ?Hm4.
    + apply Hnodir; [apply metadata_file_ne_dataset_dir|done..].
    + rewrite Hfiles4 by done. apply lookup_insert_eq.
    + unfold metadata_record. by rewrite lookup_insert_ne, lookup_insert_eq.
    + apply Hnodir; [apply dataset_file_ne_dataset_dir|done..].
    + rewrite Hfiles4 by done.
      rewrite lookup_insert_ne by (symmetry; apply dataset_file_ne_metadata_file).
      apply lookup_insert_eq.
  - cbn. apply lookup_insert_eq.
Qed.

End TwoDatasets.

(** ** What [build_config] returns *)

Lemma dom_foldl_insert (kwargs : list (string * value)) (d : dict) :
  Forall (λ kv, kv.1 ∈ dom d) kwargs →
  dom (foldl (λ acc kv, <[kv.1 := kv.2]> acc) d kwargs) = dom d.
Proof.
  revert d. induction kwargs as [|[key v] rest IH]; intros d Hkeys; [done|].
  apply Forall_cons in Hkeys as [Hkey Hrest]. cbn in *.
  assert (dom (<[key := v]> d) = dom d) as Hdom.
  { rewrite dom_insert_L. by apply subseteq_union_1_L, singleton_subseteq_l. }
  rewrite IH; [done|]. by rewrite Hdom.
Qed.

Lemma build_config_loop_ok_inv (l : loc) (kwargs : list (string * value))
    (d : dict) (u : unit) (m m' : machine) :
  heap m !! l = Some d →
  build_config_loop l kwargs m = (Ok u, m') →
  Forall (λ kv, kv.1 ∈ dom d) kwargs.
Proof.
  revert d m. induction kwargs as [|[key v] rest IH]; intros d m Hl Hrun; [done|].
  cbn [build_config_loop] in Hrun.
  rewrite (run_bind_ok _ _ _ _ _ (read_dict_ok _ _ _ Hl)) in Hrun.
  destruct (d !! key) as [old|] eqn:Hkey; [|done].
  rewrite (run_bind_ok _ _ _ _ _ (setitem_ok l key v d m Hl)) in Hrun.
  assert (key ∈ dom d) as Hin by (apply elem_of_dom; eauto).
  constructor; [done|].
  apply (IH (<[key := v]> d)) in Hrun; [|apply lookup_insert_eq].
  rewrite dom_insert_L in Hrun.
  by rewrite (subseteq_union_1_L {[key]} (dom d)) in Hrun
    by (by apply singleton_subseteq_l).
Qed.

(** X17: when [build_config] returns, every override key is one of the
    default keys, and the result is a new dict (at an address that held
    nothing) with exactly the default keys; the dicts that were there, the
    files and the instance are as before. *)
Theorem build_config_returns_new_dict (kwargs : list (string * value))
    (l : loc) (m m' : machine) :
  build_config kwargs m = (Ok l, m') →
  Forall (λ kv, kv.1 ∈ dom (default_config (cuda_is_available m))) kwargs
  ∧ heap m !! l = None
  ∧ ∃ c, heap m' = <[l := c]> (heap m)
         ∧ dom c = dom (default_config (cuda_is_available m))
         ∧ fs m' = fs m
         ∧ this m' = this m.
Proof.
  intros Hrun.
  assert (Forall (λ kv, kv.1 ∈ dom (default_config (cuda_is_available m))) kwargs)
    as Hkeys.
  { unfold build_config in Hrun.
    rewrite (run_bind_ok _ _ _ _ _ (get_default_config_run m)) in Hrun.
    apply bind_ok_inv in Hrun as ([] & m1 & Hloop & _).
    eapply build_config_loop_ok_inv; [|exact Hloop]. apply lookup_insert_eq. }
  rewrite build_config_ok in Hrun by done. injection Hrun as <- <-.
  split_and!; [done|apply not_elem_of_dom, is_fresh|].
  eexists. split_and!; [done| |done..]. by apply dom_foldl_insert.
Qed.

(** ** The dataset wrappers *)

Lemma tensor_getitem_in_range (t : tensor) (n : nat) (rest : list nat) (idx : Z) :
  shape t = n :: rest →
  (- Z.of_nat n ≤ idx < Z.of_nat n)%Z →
  tensor_getitem t idx
  = Ok (Tensor rest
          (take (numel rest)
             (drop (Z.to_nat (idx `mod` Z.of_nat n) * numel rest) (data t)))).
Proof.
  intros Hshape Hidx. unfold tensor_getitem. rewrite Hshape.
  destruct (decide (idx < 0)%Z) as [Hneg|Hpos].
  - rewrite decide_True by lia. do 4 f_equal.
    rewrite <- (Z.mod_add idx 1 (Z.of_nat n)) by lia.
    rewrite Z.mod_small; lia.
  - rewrite decide_True by lia. do 4 f_equal. rewrite Z.mod_small; lia.
Qed.




Lemma concat_take_drop {A} (l : list A) (n k : nat) :
  length l = n * k →
  concat ((λ i, take k (drop (i * k) l)) <$> seq 0 n) = l.
Proof.
  revert l. induction n as [|n IH]; intros l Hlen.
  - by destruct l.
  - change (seq 0 (S n)) with (0 :: seq 1 n).
    rewrite fmap_cons, <- fmap_S_seq, <- list_fmap_compose.
    change ((take k l ++ concat (((λ i, take k (drop (i * k) l)) ∘ S) <$> seq 0 n))%list
            = l).
    etrans; [|apply (take_drop k l)]. f_equal.
    rewrite <- (IH (drop k l)) by (rewrite length_drop; lia).
    f_equal. apply list_fmap_ext. intros _ i _. cbn.
    by rewrite drop_drop.
Qed.

(** X19: iterating an [AutoencoderDataset] over [range(len(dataset))]
    visits every entry of the data exactly once and in order: the length is
    the first dimension [n], each of the [n] indices yields one sample under
    ["x"], and the entries of the samples, one after the other, are the
    entries of the data. *)
Theorem autoencoder_iteration (self : AutoencoderDataset.t) (n : nat)
    (rest : list nat) :
  well_formed (AutoencoderDataset.self_data self) →
  shape (AutoencoderDataset.self_data self) = n :: rest →
  AutoencoderDataset.__len__ self = Ok n
  ∧ ∃ xs : list tensor,
      length xs = n
      ∧ (∀ i x, xs !! i = Some x →
                AutoencoderDataset.__getitem__ self (Z.of_nat i)
                = Ok (<["x" := x]> ∅)
                ∧ shape x = rest)
      ∧ concat (data <$> xs) = data (AutoencoderDataset.self_data self).
Proof.
  intros Hwf Hshape. split.
  { unfold AutoencoderDataset.__len__, tensor_len. by rewrite Hshape. }
  exists ((λ i, Tensor rest
                  (take (numel rest)
                     (drop (i * numel rest)
                        (data (AutoencoderDataset.self_data self)))))
            <$> seq 0 n).
  split_and!.
  - by rewrite length_fmap, length_seq.
  - intros i x Hx. rewrite list_lookup_fmap in Hx.
    destruct (seq 0 n !! i) as [j|] eqn:Hj; [|done].
    apply lookup_seq in Hj as [-> Hi]. injection Hx as <-. split; [|done].
    unfold AutoencoderDataset.__getitem__.
    rewrite (tensor_getitem_in_range _ n rest _ Hshape) by lia.
    rewrite Z.mod_small by lia. by rewrite Nat2Z.id.
  - rewrite <- list_fmap_compose. apply concat_take_drop.
    unfold well_formed in Hwf. by rewrite Hwf, Hshape.
Qed.

(** ** The further properties at a concrete machine *)

Lemma load_dataset_reads_recorded_path_witness :
  ∃ m', load_dataset "demo" relocated = (Ok (one_point, 0), m')
        ∧ files (fs relocated) !! "data/rf_demo/dataset.pt" = None.
Proof.
  eexists. split; [|done].
  apply (load_dataset_reads_recorded_path "demo" one_point 0 relocated).
  exists [("id", VStr "demo"); ("dataset_path", VStr "backup/demo.pt")],
    "backup/demo.pt".
  by split_and!.
Defined.

Lemma load_dataset_missing_metadata_witness :
  load_dataset "demo" booted
  = (Raise (FileNotFoundError "data/rf_demo/metadata.json"), booted).
Proof.
  apply (load_dataset_missing_metadata "demo" booted).
  - apply not_elem_of_empty.
  - done.
Defined.

Lemma load_dataset_never_writes_witness :
  fs (load_dataset "demo" relocated).2 = fs relocated
  ∧ this (load_dataset "demo" relocated).2 = this relocated.
Proof.
  destruct (load_dataset_never_writes "demo" relocated
              (load_dataset "demo" relocated).2 (load_dataset "demo" relocated).1)
    as (Hfs & Hthis & _).
  - by destruct (load_dataset "demo" relocated).
  - done.
Defined.

Lemma load_from_another_instance_witness :
  ∃ (m2 : machine) (l' : loc) (m' : machine),
    save_dataset "jepa" "lab" one_point "demo" false false generated = (Ok tt, m2)
    ∧ load_dataset "demo"
        (Machine (Instance "data" None) ∅ (fs m2) true false [])
      = (Ok (one_point, l'), m')
    ∧ heap m' !! l' = Some (metadata_record small_config (this generated) "demo").
Proof.
  destruct (small_save one_point) as (m2 & Hsave & _).
  destruct (load_from_another_instance "jepa" "lab" one_point "demo" false false
              generated m2
              (Machine (Instance "data" None) ∅ (fs m2) true false [])
              Hsave eq_refl eq_refl)
    as (l & cfg & l' & m' & Hl & Hcfg & Hload & Hmd & _).
  assert (cfg = small_config) as ->.
  { injection Hl as <-. by injection Hcfg. }
  by exists m2, l', m'.
Defined.


Lemma generate_dataset_only_stores_config_witness :
  fs (generate_dataset (Some 0) still_entropy with_uniform_config).2
  = fs with_uniform_config
  ∧ config (this (generate_dataset (Some 0) still_entropy with_uniform_config).2)
    = Some 0
  ∧ heap (generate_dataset (Some 0) still_entropy with_uniform_config).2
    = heap with_uniform_config.
Proof.
  destruct (generate_dataset_only_stores_config (Some 0) still_entropy
              (generate_dataset (Some 0) still_entropy with_uniform_config).1
              with_uniform_config
              (generate_dataset (Some 0) still_entropy with_uniform_config).2)
    as (Hfs & _ & _ & _ & l & Hl & -> & Hheap).
  - by destruct (generate_dataset (Some 0) still_entropy with_uniform_config).
  - done.
Defined.

Lemma generate_dataset_missing_key_witness :
  ∃ m', generate_dataset (Some 0) still_entropy (with_config truncated_config)
        = (Raise (KeyError "N"), m')
        ∧ get_config m' = (Ok (Some 0), m')
        ∧ heap m' = heap (with_config truncated_config).
Proof.
  apply (generate_dataset_missing_key 0 truncated_config still_entropy
           (with_config truncated_config)
           ["feature_distribution"; "nonlinearity"; "D"] ["P"; "p"; "noise"; "device"]
           "N").
  - done.
  - done.
  - intros k' Hk'. repeat (apply elem_of_cons in Hk' as [-> | Hk']); [by eexists..|].
    by apply elem_of_nil in Hk'.
  - done.
  - done.
  - intros _. by left.
Defined.

Lemma generate_dataset_noise_free_witness :
  ∃ t m',
    generate_dataset (Some 0) still_entropy with_small_config = (Ok t, m')
    ∧ shape t = [2; 3]
    ∧ Forall (λ x, 0 <= x)%R (data t).
Proof.
  destruct (generate_dataset_noise_free 0 small_config still_entropy
              with_small_config 2 3 2 (VFloat 0))
    as (t & m' & Hgen & Hshape & _ & Hrelu & _).
  - done.
  - apply small_config_valid.
  - lia.
  - done.
  - done.
  - exists t, m'. split_and!; [done | done |]. by apply Hrelu.
Defined.

Lemma generate_dataset_p_zero_witness :
  ∃ m', generate_dataset (Some 0) still_entropy (with_config silent_config)
        = (Ok (Tensor [2; 3] ((λ i, 0 * 0)%R <$> seq 0 (2 * 3))), m').
Proof.
  destruct (generate_dataset_p_zero 0 silent_config still_entropy
              (with_config silent_config) 2 3 2 (VInt 0))
    as (vn & sd & m' & Hvn & Hsd & Hgen).
  - done.
  - unfold valid_config. split_and!; try done.
    + by left.
    + exists (VInt 0), 0%R. split_and!; try done; lra.
    + by exists (VFloat 0), 0%R.
    + by left.
  - lia.
  - done.
  - done.
  - intros i. cbn. lra.
  - assert (vn = VFloat 0) as -> by (by injection Hvn).
    assert (sd = 0%R) as -> by (by injection Hsd).
    by exists m'.
Defined.

Lemma generate_dataset_p_one_witness :
  ∃ m', generate_dataset (Some 0) still_entropy (with_config saturated_config)
        = (Ok (Tensor [2; 3]
                 (concat
                    (replicate 2
                       ((λ j, relu
                                (foldr Rplus 0 ((λ k, 0) <$> seq 0 2)
                                 / sqrt (IZR (Z.of_nat 2))))%R
                          <$> seq 0 3)))),
           m').
Proof.
  destruct (generate_dataset_p_one 0 saturated_config still_entropy
              (with_config saturated_config) 2 3 2 (VInt 1) (VFloat 0))
    as (sigma & m' & [[_ ->] | [Htanh _]] & Hgen).
  - done.
  - unfold valid_config. split_and!; try done.
    + by left.
    + exists (VInt 1), 1%R. split_and!; try done; lra.
    + by exists (VFloat 0), 0%R.
    + by left.
  - lia.
  - done.
  - done.
  - done.
  - done.
  - intros i. cbn. lra.
  - by exists m'.
  - discriminate Htanh.
Defined.

Lemma generate_after_save_raises_witness :
  ∃ (t : tensor) (m2 : machine) (l : loc) (m3 : machine),
    generate_dataset (Some 0) still_entropy with_small_config = (Ok t, generated)
    ∧ save_dataset "jepa" "lab" t "demo" false false generated = (Ok tt, m2)
    ∧ get_config m2 = (Ok (Some l), m2)
    ∧ generate_dataset (Some l) still_entropy m2 = (Raise (KeyError "device"), m3).
Proof.
  destruct small_generation as [t Hgen].
  destruct (small_save t) as (m2 & Hsave & _).
  destruct (generate_after_save_raises "jepa" "lab" (Some 0) still_entropy
              still_entropy t t "demo" false false with_small_config generated
              m2 Hgen Hsave)
    as (l & m3 & Hcfg & Hagain).
  by exists t, m2, l, m3.
Defined.


Lemma later_save_keeps_dataset_witness :
  ∃ (m2 : machine) (l' : loc) (m5 : machine),
    save_dataset "jepa" "lab" one_point "demo" false false generated = (Ok tt, m2)
    ∧ load_dataset "demo"
        (save_dataset "jepa" "lab" two_samples "again" true false
           (generate_dataset None still_entropy m2).2).2
      = (Ok (one_point, l'), m5)
    ∧ heap m5 !! l' = Some (metadata_record small_config (this generated) "demo").
Proof.
  destruct (small_save one_point) as (m2 & Hsave & _).
  exists m2.
  destruct (generate_dataset None still_entropy m2) as [r0 m3] eqn:Hgen.
  cbn [snd].
  destruct (save_dataset "jepa" "lab" two_samples "again" true false m3)
    as [r m4] eqn:Hsave2.
  cbn [snd].
  destruct (later_save_keeps_dataset "jepa" "lab" one_point two_samples "demo"
              "again" false false true false None still_entropy r0 r generated
              m2 m3 m4 Hsave Hgen Hsave2 eq_refl eq_refl)
    as (l & cfg & l' & m5 & Hl & Hcfg & Hload & Hmd).
  - done.
  - assert (cfg = small_config) as ->.
    { injection Hl as <-. by injection Hcfg. }
    by exists l', m5.
Defined.

Lemma build_config_returns_new_dict_witness :
  ∃ l m' c,
    build_config scenario_kwargs booted = (Ok l, m')
    ∧ heap m' = <[l := c]> (heap booted)
    ∧ dom c = dom (default_config (cuda_is_available booted)).
Proof.
  assert (Forall (λ kv, kv.1 ∈ dom (default_config (cuda_is_available booted)))
            scenario_kwargs) as Hkeys.
  { rewrite dom_default_config. unfold scenario_kwargs.
    apply (bool_decide_unpack _). vm_compute. exact I. }
  destruct (build_config_returns_new_dict scenario_kwargs _ booted _
              (build_config_ok scenario_kwargs booted Hkeys))
    as (_ & _ & c & Hheap & Hdom & _).
  exact (ex_intro _ _ (ex_intro _ _ (ex_intro _ c
           (conj (build_config_ok scenario_kwargs booted Hkeys) (conj Hheap Hdom))))).
Defined.


Lemma autoencoder_iteration_witness :
  AutoencoderDataset.__len__ (AutoencoderDataset.__init__ two_samples) = Ok 2
  ∧ ∃ xs : list tensor,
      length xs = 2
      ∧ concat (data <$> xs) = [1; 2; 3; 4]%R.
Proof.
  destruct (autoencoder_iteration (AutoencoderDataset.__init__ two_samples) 2 [2]
              eq_refl eq_refl)
    as (Hlen & xs & Hxs & _ & Hdata).
  split; [done|]. by exists xs.
Defined.
